(** * Gaze orchestrator: a shallow embedding of [gaze_tracking/gaze_tracking.py]

    The class [GazeTracking] turns the measurements of two eye models into
    a nine-cell gaze direction and a four-valued blink status.

    Conventions of the embedding.
    - A Python call either returns a value or raises: the type [result].
    - A method whose body is [if self.pupils_located: ... return v] falls
      off its end otherwise and returns [None]: its value type is an
      [option].
    - Python floats are modelled by exact rationals ([Q]); every float
      literal of the source stands for its decimal value.  Equality of
      ratios is [Qeq] ([==]).
    - [from __future__ import division]: [/] is true division and raises
      [ZeroDivisionError] on a zero divisor. *)

From Stdlib Require Import ZArith QArith Bool List Lia Lqa.
Import ListNotations.

Local Open Scope Z_scope.

(** ** Exceptions and results *)

Inductive exn : Type :=
| AttributeError
| TypeError
| IndexError
| ZeroDivisionError
| ExternalError.

Inductive result (A : Type) : Type :=
| Ok (a : A)
| Raise (e : exn).

Arguments Ok {A} a.
Arguments Raise {A} e.

Definition bind {A B : Type} (c : result A) (k : A -> result B) : result B :=
  match c with
  | Ok a => k a
  | Raise e => Raise e
  end.

Notation "x <- c ;; k" := (bind c (fun x => k))
  (at level 61, c at next level, right associativity).
Definition returns {A : Type} (c : result A) : Prop := exists a, c = Ok a.

(** ** Thresholds (module-level constants of the source) *)

Definition RIGHT_THRESHOLD : Q := 0.30.
Definition LEFT_THRESHOLD : Q := 0.65.
Definition TOP_THRESHOLD : Q := 0.45.
Definition BOTTOM_THRESHOLD : Q := 0.687.
Definition BLINKING_THRESHOLD : Q := 4.68.
Definition WINKING_RIGHT_THRESHOLD : Q := 4.5.
Definition WINKING_LEFT_THRESHOLD : Q := 4.2.
Definition WINKING_EYE_DIFF : Q := 0.08.

(** ** The eye model

    Modelled from the spec: the classes [Eye] and [Pupil] live in
    [eye.py] and [pupil.py], which the orchestrator only imports.  An eye
    model holds [origin] (integer frame coordinates), [center] (local
    coordinates), [pupil] (may be absent, and each of its coordinates may
    be undefined when localization failed) and the closure ratio
    [blinking]. *)

Module Pupil.
Record t : Type := mk { x : option Z; y : option Z }.
End Pupil.

Module Eye.
Record t : Type := mk {
  origin : Z * Z;
  center : Q * Q;
  pupil : option Pupil.t;
  blinking : Q
}.
End Eye.

(** ** Python primitives used by the methods *)

(** [e.attr] on an object reference that may be [None]. *)
Definition getattr {A : Type} (o : option A) : result A :=
  match o with
  | Some a => Ok a
  | None => Raise AttributeError
  end.

(** A number expected where the value may be [None]: [int(None)],
    [None + 1], [None <= 0.3] all raise [TypeError]. *)
Definition number {A : Type} (o : option A) : result A :=
  match o with
  | Some a => Ok a
  | None => Raise TypeError
  end.

Definition truediv (a b : Q) : result Q :=
  if Qeq_bool b 0 then Raise ZeroDivisionError else Ok (a / b)%Q.

Definition Qlt_bool (a b : Q) : bool := negb (Qle_bool b a).

(** [a <= b], [a >= b], [a > b] where [a] is the value of a method call. *)
Definition py_le (a : option Q) (b : Q) : result bool :=
  a <- number a ;; Ok (Qle_bool a b).
Definition py_ge (a : option Q) (b : Q) : result bool :=
  a <- number a ;; Ok (Qle_bool b a).
Definition py_gt (a : option Q) (b : Q) : result bool :=
  a <- number a ;; Ok (Qlt_bool b a).
Definition py_sub (a b : option Q) : result Q :=
  a <- number a ;; b <- number b ;; Ok (a - b)%Q.

(** Truth value of a method result in [if m():] ([None] is falsy). *)
Definition truthy (o : option bool) : bool :=
  match o with
  | Some b => b
  | None => false
  end.

(** [v is not True]. *)
Definition is_not_True (o : option bool) : bool :=
  match o with
  | Some true => false
  | _ => true
  end.

(** ** The orchestrator *)

Section Orchestrator.

Context {Frame Calibration : Type}.

Record GazeTracking : Type := mkGaze {
  frame : option Frame;
  eye_left : option Eye.t;
  eye_right : option Eye.t;
  calibration : Calibration
}.

(** [self.eye.pupil.x] and [self.eye.pupil.y]. *)
Definition pupil_x (eye : option Eye.t) : result (option Z) :=
  e <- getattr eye ;; p <- getattr (Eye.pupil e) ;; Ok (Pupil.x p).
Definition pupil_y (eye : option Eye.t) : result (option Z) :=
  e <- getattr eye ;; p <- getattr (Eye.pupil e) ;; Ok (Pupil.y p).

(** The attribute where a number is needed: [int(self.eye.pupil.x)], and
    the same attribute as an operand of [+] or [/]. *)
Definition int_pupil_x (eye : option Eye.t) : result Z :=
  v <- pupil_x eye ;; number v.
Definition int_pupil_y (eye : option Eye.t) : result Z :=
  v <- pupil_y eye ;; number v.

Definition pupils_located (self : GazeTracking) : bool :=
  match
    _ <- int_pupil_x (eye_left self) ;;
    _ <- int_pupil_y (eye_left self) ;;
    _ <- int_pupil_x (eye_right self) ;;
    _ <- int_pupil_y (eye_right self) ;;
    Ok true
  with
  | Ok b => b
  | Raise _ => false
  end.

Definition pupil_coords (eye : option Eye.t) : result (option (Z * Z)) :=
  e <- getattr eye ;;
  px <- int_pupil_x eye ;;
  let x := fst (Eye.origin e) + px in
  e <- getattr eye ;;
  py <- int_pupil_y eye ;;
  let y := snd (Eye.origin e) + py in
  Ok (Some (x, y)).

Definition pupil_left_coords (self : GazeTracking) : result (option (Z * Z)) :=
  if pupils_located self then pupil_coords (eye_left self) else Ok None.

Definition pupil_right_coords (self : GazeTracking) : result (option (Z * Z)) :=
  if pupils_located self then pupil_coords (eye_right self) else Ok None.

(** [eye.pupil.x / (eye.center[0] * 2 - 10)] *)
Definition pupil_ratio_x (eye : option Eye.t) : result Q :=
  px <- int_pupil_x eye ;;
  e <- getattr eye ;;
  truediv (inject_Z px) (fst (Eye.center e) * 2 - 10)%Q.

Definition pupil_ratio_y (eye : option Eye.t) : result Q :=
  py <- int_pupil_y eye ;;
  e <- getattr eye ;;
  truediv (inject_Z py) (snd (Eye.center e) * 2 - 10)%Q.

Definition horizontal_ratio (self : GazeTracking) : result (option Q) :=
  if pupils_located self then
    pupil_left <- pupil_ratio_x (eye_left self) ;;
    pupil_right <- pupil_ratio_x (eye_right self) ;;
    r <- truediv (pupil_left + pupil_right)%Q 2 ;;
    Ok (Some r)
  else Ok None.

Definition vertical_ratio (self : GazeTracking) : result (option Q) :=
  if pupils_located self then
    pupil_left <- pupil_ratio_y (eye_left self) ;;
    pupil_right <- pupil_ratio_y (eye_right self) ;;
    r <- truediv (pupil_left + pupil_right)%Q 2 ;;
    Ok (Some r)
  else Ok None.

Definition get_bl (self : GazeTracking) : result (option Q) :=
  if pupils_located self then
    e <- getattr (eye_right self) ;; Ok (Some (Eye.blinking e))
  else Ok None.

Definition get_br (self : GazeTracking) : result (option Q) :=
  if pupils_located self then
    e <- getattr (eye_left self) ;; Ok (Some (Eye.blinking e))
  else Ok None.

Definition both_pupils_found (self : GazeTracking) : bool :=
  pupils_located self.

Definition is_right (self : GazeTracking) : result (option bool) :=
  if pupils_located self then
    h <- horizontal_ratio self ;;
    b <- py_le h RIGHT_THRESHOLD ;;
    Ok (Some b)
  else Ok None.

Definition is_left (self : GazeTracking) : result (option bool) :=
  if pupils_located self then
    h <- horizontal_ratio self ;;
    b <- py_ge h LEFT_THRESHOLD ;;
    Ok (Some b)
  else Ok None.

Definition is_center (self : GazeTracking) : result (option bool) :=
  if pupils_located self then
    r <- is_right self ;;
    if is_not_True r then
      l <- is_left self ;; Ok (Some (is_not_True l))
    else Ok (Some false)
  else Ok None.

Definition is_blinking (self : GazeTracking) : result (option bool) :=
  if pupils_located self then
    bl <- get_bl self ;;
    c <- py_gt bl BLINKING_THRESHOLD ;;
    if c then
      br <- get_br self ;;
      c' <- py_gt br BLINKING_THRESHOLD ;;
      Ok (Some c')
    else Ok (Some false)
  else Ok None.

Definition is_winking_right (self : GazeTracking) : result (option bool) :=
  if pupils_located self then
    br <- get_br self ;;
    c <- py_gt br WINKING_RIGHT_THRESHOLD ;;
    if c then
      br <- get_br self ;;
      bl <- get_bl self ;;
      d <- py_sub br bl ;;
      Ok (Some (Qle_bool (WINKING_EYE_DIFF * WINKING_RIGHT_THRESHOLD) d))
    else Ok (Some false)
  else Ok None.

Definition is_winking_left (self : GazeTracking) : result (option bool) :=
  if pupils_located self then
    bl <- get_bl self ;;
    c <- py_gt bl WINKING_LEFT_THRESHOLD ;;
    if c then
      bl <- get_bl self ;;
      br <- get_br self ;;
      d <- py_sub bl br ;;
      Ok (Some (Qle_bool (WINKING_EYE_DIFF * WINKING_LEFT_THRESHOLD) d))
    else Ok (Some false)
  else Ok None.

Definition is_up (self : GazeTracking) : result (option bool) :=
  if pupils_located self then
    v <- vertical_ratio self ;;
    b <- py_le v TOP_THRESHOLD ;;
    Ok (Some b)
  else Ok None.

Definition is_bottom (self : GazeTracking) : result (option bool) :=
  if pupils_located self then
    v <- vertical_ratio self ;;
    b <- py_ge v BOTTOM_THRESHOLD ;;
    Ok (Some b)
  else Ok None.

Definition true_gaze_blinking (self : GazeTracking) : result Z :=
  if negb (pupils_located self) then Ok (-1)
  else
    b <- is_blinking self ;;
    if truthy b then Ok 3
    else
      r <- is_winking_right self ;;
      if truthy r then Ok 2
      else
        l <- is_winking_left self ;;
        if truthy l then Ok 1 else Ok 0.

Definition true_gaze_direction (self : GazeTracking) : result Z :=
  if negb (pupils_located self) then Ok (-1)
  else
    h_offset <-
      (l <- is_left self ;;
       if truthy l then Ok 0
       else
         r <- is_right self ;;
         if truthy r then Ok 2 else Ok 1) ;;
    v_offset <-
      (u <- is_up self ;;
       if truthy u then Ok 0
       else
         b <- is_bottom self ;;
         if truthy b then Ok 6 else Ok 3) ;;
    Ok (h_offset + v_offset).

End Orchestrator.

Arguments GazeTracking : clear implicits.

(** ** Frame ingestion: [_analyze] and [refresh]

    The detectors and the [Eye] constructor are external collaborators:
    they are parameters here.  Each may raise; the constructor also
    updates the calibration object it is lent, so it returns the new
    calibration next to its result.  Assignments to [self] made before an
    exception is raised persist, so the state is threaded through and
    returned in both cases. *)

Section Refresh.

Context {Frame Calibration Gray Face Landmarks : Type}.

Variable cvtColor : Frame -> result Gray.
Variable _face_detector : Gray -> result (list Face).
Variable _predictor : Gray -> Face -> result Landmarks.
Variable Eye_init :
  Gray -> Landmarks -> Z -> Calibration -> result Eye.t * Calibration.

Let Self : Type := GazeTracking Frame Calibration.

Definition set_frame (f : option Frame) (self : Self) : Self :=
  mkGaze f (eye_left self) (eye_right self) (calibration self).
Definition set_eye_left (e : option Eye.t) (self : Self) : Self :=
  mkGaze (frame self) e (eye_right self) (calibration self).
Definition set_eye_right (e : option Eye.t) (self : Self) : Self :=
  mkGaze (frame self) (eye_left self) e (calibration self).
Definition set_calibration (c : Calibration) (self : Self) : Self :=
  mkGaze (frame self) (eye_left self) (eye_right self) c.

(** The body of the [try] block of [_analyze]. *)
Definition _analyze_try (gray : Gray) (faces : list Face) (self : Self)
  : result unit * Self :=
  match nth_error faces 0 with
  | None => (Raise IndexError, self)
  | Some face =>
    match _predictor gray face with
    | Raise e => (Raise e, self)
    | Ok landmarks =>
      match Eye_init gray landmarks 0 (calibration self) with
      | (Raise e, cal) => (Raise e, set_calibration cal self)
      | (Ok el, cal) =>
        let self := set_eye_left (Some el) (set_calibration cal self) in
        match Eye_init gray landmarks 1 (calibration self) with
        | (Raise e, cal) => (Raise e, set_calibration cal self)
        | (Ok er, cal) =>
          (Ok tt, set_eye_right (Some er) (set_calibration cal self))
        end
      end
    end
  end.

Definition _analyze (self : Self) : result unit * Self :=
  match frame self with
  | None => (Raise ExternalError, self)
  | Some f =>
    match cvtColor f with
    | Raise e => (Raise e, self)
    | Ok gray =>
      match _face_detector gray with
      | Raise e => (Raise e, self)
      | Ok faces =>
        match _analyze_try gray faces self with
        | (Raise IndexError, self') =>
          (Ok tt, set_eye_right None (set_eye_left None self'))
        | r => r
        end
      end
    end
  end.

Definition refresh (self : Self) (f : Frame) : result unit * Self :=
  _analyze (set_frame (Some f) self).

End Refresh.

(** ** Construction and annotation: [__init__] and [annotated_frame] *)

Section Construction.

Context {Frame Calibration : Type}.

(** [__init__]: no frame and no eye model yet.  The calibration object
    the constructor creates is its argument here; the detector and the
    predictor it loads are the parameters of [refresh]. *)
Definition __init__ (cal : Calibration) : GazeTracking Frame Calibration :=
  mkGaze None None None cal.

(** [cv2.line(frame, p, q, color)] draws on the copy of the frame; here it
    returns the image drawn upon. *)
Variable line : Frame -> Z * Z -> Z * Z -> Z * Z * Z -> Frame.

(** [self.frame.copy()] fails on [None]; [x, y = v] fails when [v] is
    [None]. *)
Definition annotated_frame (self : GazeTracking Frame Calibration)
  : result Frame :=
  frame <- getattr (frame self) ;;
  if pupils_located self then
    let color := (0, 255, 0) in
    l <- pupil_left_coords self ;;
    l <- number l ;;
    let '(x_left, y_left) := l in
    r <- pupil_right_coords self ;;
    r <- number r ;;
    let '(x_right, y_right) := r in
    let frame := line frame (x_left - 5, y_left) (x_left + 5, y_left) color in
    let frame := line frame (x_left, y_left - 5) (x_left, y_left + 5) color in
    let frame :=
      line frame (x_right - 5, y_right) (x_right + 5, y_right) color in
    let frame :=
      line frame (x_right, y_right - 5) (x_right, y_right + 5) color in
    Ok frame
  else Ok frame.

End Construction.

(** ** The classification of the spec

    These definitions follow the words of the specification (section 4.4):
    the zone of a ratio and the offset of a zone.  They are compared with
    [true_gaze_direction] below. *)






(** ** Concrete states used by the examples below *)

Module Samples.

(** An eye at the frame origin [(100, 50)] with both pupil coordinates
    located. *)
Definition eye (px py : Z) (cx cy blink : Q) : Eye.t :=
  Eye.mk (100, 50) (cx, cy) (Some (Pupil.mk (Some px) (Some py))) blink.

Definition state (l r : option Eye.t) : GazeTracking unit unit :=
  mkGaze None l r tt.

(** Both eyes see the pupil at [(px, py)] in a region of center [(cx, cy)];
    closure ratios [bl_left] (of [eye_left]) and [bl_right]. *)
Definition looking (px py : Z) (cx cy bl_left bl_right : Q)
  : GazeTracking unit unit :=
  state (Some (eye px py cx cy bl_left)) (Some (eye px py cx cy bl_right)).

(** A face whose right pupil was not localized. *)
Definition one_pupil : GazeTracking unit unit :=
  state (Some (eye 12 7 15 10 3))
        (Some (Eye.mk (160, 50) (15, 10)%Q
                      (Some (Pupil.mk None None)) 3)).

(** Ratios [(0.2, 0.2)], [(0.5, 0.5)] and [(0.8, 0.9)]. *)
Definition gaze_02_02 := looking 2 2 10 10 3 3.
Definition gaze_05_05 := looking 5 5 10 10 3 3.
Definition gaze_08_09 := looking 8 9 10 10 3 3.

(** Horizontal ratio exactly [RIGHT_THRESHOLD]. *)
Definition gaze_at_right_threshold := looking 3 5 10 10 3 3.

(** Thirty pixels wide region, pupil at column 28: ratio 28/20. *)
Definition pupil_at_edge := looking 28 7 15 12 3 3.

(** Ten pixels wide region: the denominator [2 * 5 - 10] is zero. *)
Definition narrow_region := looking 3 4 5 20 3 3.

(** Both eyes closed, the left one more. *)
Definition eyes_shut := looking 12 7 15 12 5.5 5.
(** [eye_left] closed, [eye_right] open. *)
Definition left_model_shut := looking 12 7 15 12 4.6 4.

(** A detector that finds a face on non-empty frames only, on frames
    given as lists of pixel rows. *)
Definition Frame : Type := list (list Z).
Definition cvtColor (f : Frame) : result Frame := Ok f.
Definition face_detector (f : Frame) : result (list nat) :=
  Ok (match f with [] => [] | _ => [0%nat] end).
Definition predictor (f : Frame) (face : nat) : result unit := Ok tt.
Definition Eye_init (f : Frame) (l : unit) (side : Z) (c : nat)
  : result Eye.t * nat :=
  (Ok (eye 12 7 15 12 3), S c).

(** A tracker that located both pupils on the previous frame. *)
Definition tracking : GazeTracking Frame nat :=
  mkGaze (Some [[1; 2]; [3; 4]])
         (Some (eye 12 7 15 12 3)) (Some (eye 11 7 15 12 3)) 2%nat.

End Samples.

(** ** Collaborators that fail, for the examples on [refresh] *)

Module Faulty.

(** A predictor whose landmark lookup runs out of range. *)
Definition predictor_IndexError (f : Samples.Frame) (face : nat)
  : result unit := Raise IndexError.

(** A constructor that builds the eye of side 0 and fails on side 1 with
    the exception [e]; the calibration is updated in both calls. *)
Definition Eye_init_right_fails (e : exn)
  (f : Samples.Frame) (l : unit) (side : Z) (c : nat)
  : result Eye.t * nat :=
  if side =? 0 then (Ok (Samples.eye 9 4 15 12 3), S c) else (Raise e, S c).


(** A grayscale conversion that rejects every frame. *)
Definition cvtColor_fails (f : Samples.Frame) : result Samples.Frame :=
  Raise ExternalError.

(** A constructor whose result depends on the side and on the
    calibration it is lent. *)
Definition Eye_init_by_side
  (f : Samples.Frame) (l : unit) (side : Z) (c : nat)
  : result Eye.t * nat :=
  (Ok (Samples.eye (10 + side) (Z.of_nat c) 15 12 3), S c).

(** A detector that finds two faces. *)
Definition two_faces (f : Samples.Frame) : result (list nat) :=
  Ok [7%nat; 8%nat].

(** An image as the list of the segments drawn on it. *)
Definition Canvas : Type := list ((Z * Z) * (Z * Z)).
Definition draw (f : Canvas) (p q : Z * Z) (color : Z * Z * Z) : Canvas :=
  f ++ [(p, q)].

Definition with_canvas (l r : option Eye.t) : GazeTracking Canvas unit :=
  mkGaze (Some []) l r tt.

End Faulty.

(** ** Predicates on states used in the statements *)

(** [located_eye eye e px py]: the eye model is present, it is [e], and
    its pupil holds both coordinates [(px, py)]. *)
Inductive located_eye : option Eye.t -> Eye.t -> Z -> Z -> Prop :=
| located_eye_intro o c px py b :
    located_eye
      (Some (Eye.mk o c (Some (Pupil.mk (Some px) (Some py))) b))
      (Eye.mk o c (Some (Pupil.mk (Some px) (Some py))) b) px py.

(** The pupil coordinate [p] lies within the travel range
    [2 * c - 10] of a region of center [c], and that range is positive. *)
Definition in_travel_range (p : Z) (c : Q) : Prop :=
  (0 < c * 2 - 10 /\ 0 <= inject_Z p /\ inject_Z p <= c * 2 - 10)%Q.

(** Neither denominator [center * 2 - 10] of a present eye model is
    zero. *)
Definition nonzero_denominators_eye (eye : option Eye.t) : bool :=
  match eye with
  | None => true
  | Some e =>
    negb (Qeq_bool (fst (Eye.center e) * 2 - 10) 0)
    && negb (Qeq_bool (snd (Eye.center e) * 2 - 10) 0)
  end.

Definition nonzero_denominators {Frame Calibration : Type}
  (self : GazeTracking Frame Calibration) : bool :=
  nonzero_denominators_eye (eye_left self)
  && nonzero_denominators_eye (eye_right self).

(** * Properties *)

(** ** Comparisons on rationals *)

Lemma Qlt_bool_iff (a b : Q) : Qlt_bool a b = true <-> (a < b)%Q.
Proof.
  unfold Qlt_bool. rewrite negb_true_iff. split; intros H.
  - apply Qnot_le_lt. intros L. apply Qle_bool_iff in L. congruence.
  - destruct (Qle_bool b a) eqn:E; [|reflexivity].
    apply Qle_bool_iff in E. exfalso. exact (Qlt_not_le _ _ H E).
Qed.

Lemma Qle_bool_false_iff (a b : Q) : Qle_bool a b = false <-> (b < a)%Q.
Proof.
  rewrite <- Qlt_bool_iff. unfold Qlt_bool.
  destruct (Qle_bool a b); simpl; intuition congruence.
Qed.

Lemma Qle_bool_compat (a a' b b' : Q) :
  (a == a')%Q -> (b == b')%Q -> Qle_bool a b = Qle_bool a' b'.
Proof.
  intros Ha Hb.
  destruct (Qle_bool a b) eqn:E, (Qle_bool a' b') eqn:E'; try reflexivity.
  - apply Qle_bool_iff in E. apply Qle_bool_false_iff in E'.
    rewrite Ha, Hb in E. exfalso. exact (Qlt_not_le _ _ E' E).
  - apply Qle_bool_iff in E'. apply Qle_bool_false_iff in E.
    rewrite Ha, Hb in E. exfalso. exact (Qlt_not_le _ _ E E').
Qed.

Lemma truediv_ok (a b : Q) :
  ~ (b == 0)%Q -> truediv a b = Ok (a / b)%Q.
Proof.
  intros H. unfold truediv.
  destruct (Qeq_bool b 0) eqn:E; [|reflexivity].
  apply Qeq_bool_iff in E. contradiction.
Qed.

(** ** What a state with located pupils looks like *)

Section Located.

Context {Frame Calibration : Type}.
Implicit Type self : GazeTracking Frame Calibration.

Lemma int_pupil_inv (eye : option Eye.t) (px py : Z) :
  int_pupil_x eye = Ok px -> int_pupil_y eye = Ok py ->
  exists e, located_eye eye e px py.
Proof.
  destruct eye as [[o c [[[x|] [y|]]|] b]|]; simpl; try discriminate.
  intros [= <-] [= <-]. eexists. constructor.
Qed.

Lemma pupils_located_inv self :
  pupils_located self = true ->
  exists el lx ly er rx ry,
    located_eye (eye_left self) el lx ly /\
    located_eye (eye_right self) er rx ry.
Proof.
  unfold pupils_located.
  destruct (int_pupil_x (eye_left self)) as [lx|] eqn:Hlx; [|discriminate].
  destruct (int_pupil_y (eye_left self)) as [ly|] eqn:Hly; [|discriminate].
  destruct (int_pupil_x (eye_right self)) as [rx|] eqn:Hrx; [|discriminate].
  destruct (int_pupil_y (eye_right self)) as [ry|] eqn:Hry; [|discriminate].
  intros _.
  destruct (int_pupil_inv _ _ _ Hlx Hly) as [el Hl].
  destruct (int_pupil_inv _ _ _ Hrx Hry) as [er Hr].
  exists el, lx, ly, er, rx, ry. split; assumption.
Qed.

Lemma pupils_located_intro self el lx ly er rx ry :
  located_eye (eye_left self) el lx ly ->
  located_eye (eye_right self) er rx ry ->
  pupils_located self = true.
Proof.
  unfold pupils_located. intros Hl Hr.
  inversion Hl as [? ? ? ? ? El]; inversion Hr as [? ? ? ? ? Er].
  reflexivity.
Qed.

Lemma located_eye_Some eye e px py :
  located_eye eye e px py ->
  eye = Some e /\ Eye.pupil e = Some (Pupil.mk (Some px) (Some py)).
Proof. intros H. inversion H. split; reflexivity. Qed.

Lemma located_pupil_coords eye e px py :
  located_eye eye e px py ->
  pupil_coords eye
  = Ok (Some (fst (Eye.origin e) + px, snd (Eye.origin e) + py)).
Proof. intros H. inversion H. reflexivity. Qed.

Lemma located_pupil_ratio_x eye e px py :
  located_eye eye e px py ->
  pupil_ratio_x eye
  = truediv (inject_Z px) (fst (Eye.center e) * 2 - 10)%Q.
Proof. intros H. inversion H. reflexivity. Qed.

Lemma located_pupil_ratio_y eye e px py :
  located_eye eye e px py ->
  pupil_ratio_y eye
  = truediv (inject_Z py) (snd (Eye.center e) * 2 - 10)%Q.
Proof. intros H. inversion H. reflexivity. Qed.

Lemma located_get_bl self el lx ly er rx ry :
  located_eye (eye_left self) el lx ly ->
  located_eye (eye_right self) er rx ry ->
  get_bl self = Ok (Some (Eye.blinking er)) /\
  get_br self = Ok (Some (Eye.blinking el)).
Proof.
  intros Hl Hr. unfold get_bl, get_br.
  rewrite (pupils_located_intro _ _ _ _ _ _ _ Hl Hr).
  apply located_eye_Some in Hl as [-> _].
  apply located_eye_Some in Hr as [-> _].
  split; reflexivity.
Qed.

End Located.

(** ** Blink and wink classification *)

Section Blinking.

Context {Frame Calibration : Type}.
Implicit Type self : GazeTracking Frame Calibration.

(** The three predicates, as functions of the two closure ratios read
    through [get_bl] and [get_br]. *)
Lemma closure_predicates self (bl br : Q) :
  pupils_located self = true ->
  get_bl self = Ok (Some bl) ->
  get_br self = Ok (Some br) ->
  is_blinking self
  = Ok (Some (Qlt_bool BLINKING_THRESHOLD bl
              && Qlt_bool BLINKING_THRESHOLD br)) /\
  is_winking_right self
  = Ok (Some (Qlt_bool WINKING_RIGHT_THRESHOLD br
              && Qle_bool (WINKING_EYE_DIFF * WINKING_RIGHT_THRESHOLD)
                          (br - bl))) /\
  is_winking_left self
  = Ok (Some (Qlt_bool WINKING_LEFT_THRESHOLD bl
              && Qle_bool (WINKING_EYE_DIFF * WINKING_LEFT_THRESHOLD)
                          (bl - br))).
Proof.
  intros Hloc Hbl Hbr.
  unfold is_blinking, is_winking_right, is_winking_left.
  rewrite Hloc, Hbl, Hbr. simpl.
  repeat split.
  - destruct (Qlt_bool BLINKING_THRESHOLD bl); reflexivity.
  - destruct (Qlt_bool WINKING_RIGHT_THRESHOLD br); reflexivity.
  - destruct (Qlt_bool WINKING_LEFT_THRESHOLD bl); reflexivity.
Qed.

Lemma true_gaze_blinking_located self (bl br : Q) :
  pupils_located self = true ->
  get_bl self = Ok (Some bl) ->
  get_br self = Ok (Some br) ->
  true_gaze_blinking self
  = Ok (if Qlt_bool BLINKING_THRESHOLD bl && Qlt_bool BLINKING_THRESHOLD br
        then 3
        else if Qlt_bool WINKING_RIGHT_THRESHOLD br
                && Qle_bool (WINKING_EYE_DIFF * WINKING_RIGHT_THRESHOLD)
                            (br - bl)
        then 2
        else if Qlt_bool WINKING_LEFT_THRESHOLD bl
                && Qle_bool (WINKING_EYE_DIFF * WINKING_LEFT_THRESHOLD)
                            (bl - br)
        then 1
        else 0).
Proof.
  intros Hloc Hbl Hbr.
  destruct (closure_predicates self bl br Hloc Hbl Hbr) as (Hb & Hr & Hl).
  unfold true_gaze_blinking. rewrite Hloc, Hb, Hr, Hl. simpl.
  repeat match goal with
         | |- context [if ?c then _ else _] => destruct c; simpl
         end; reflexivity.
Qed.

(** Each wink condition of the source, as a proposition. *)
Lemma wink_condition (t a b : Q) :
  Qlt_bool t a && Qle_bool (WINKING_EYE_DIFF * t) (a - b) = true
  <-> (t < a /\ WINKING_EYE_DIFF * t <= a - b)%Q.
Proof.
  rewrite andb_true_iff, Qlt_bool_iff, Qle_bool_iff. reflexivity.
Qed.

Lemma blink_condition (a b : Q) :
  Qlt_bool BLINKING_THRESHOLD a && Qlt_bool BLINKING_THRESHOLD b = true
  <-> (BLINKING_THRESHOLD < a /\ BLINKING_THRESHOLD < b)%Q.
Proof.
  rewrite andb_true_iff, !Qlt_bool_iff. reflexivity.
Qed.

(** C1: with pupils located, when both closure ratios read by [get_bl]
    and [get_br] exceed [BLINKING_THRESHOLD], [true_gaze_blinking]
    returns 3, whatever the wink predicates would say. *)
Theorem full_blink_returns_3 self (bl br : Q) :
  pupils_located self = true ->
  get_bl self = Ok (Some bl) ->
  get_br self = Ok (Some br) ->
  (BLINKING_THRESHOLD < bl)%Q ->
  (BLINKING_THRESHOLD < br)%Q ->
  true_gaze_blinking self = Ok 3.
Proof.
  intros Hloc Hbl Hbr Lbl Lbr.
  rewrite (true_gaze_blinking_located self bl br Hloc Hbl Hbr).
  apply Qlt_bool_iff in Lbl, Lbr. rewrite Lbl, Lbr. reflexivity.
Qed.

(** C10: [is_winking_right] and [is_winking_left] never both return
    true: the difference of the closure ratios cannot be at least
    [0.08 * 4.5] while its opposite is at least [0.08 * 4.2]. *)
Theorem winks_exclusive self :
  pupils_located self = true ->
  ~ (is_winking_right self = Ok (Some true) /\
     is_winking_left self = Ok (Some true)).
Proof.
  intros Hloc [Hr Hl].
  destruct (pupils_located_inv self Hloc)
    as (el & lx & ly & er & rx & ry & Hel & Her).
  destruct (located_get_bl self _ _ _ _ _ _ Hel Her) as [Hbl Hbr].
  destruct (closure_predicates self _ _ Hloc Hbl Hbr) as (_ & Hr' & Hl').
  rewrite Hr' in Hr. rewrite Hl' in Hl.
  injection Hr as Hr. injection Hl as Hl.
  apply wink_condition in Hr, Hl.
  destruct Hr as [_ Hr], Hl as [_ Hl].
  unfold WINKING_EYE_DIFF, WINKING_RIGHT_THRESHOLD,
    WINKING_LEFT_THRESHOLD in *.
  lra.
Qed.

End Blinking.

Section RightWink.

Context {Frame Calibration : Type}.
Implicit Type self : GazeTracking Frame Calibration.

(** C2, as amended: when the full-blink condition fails,
    [true_gaze_blinking] returns 2 exactly when the closure ratio read by
    [get_br], which is that of [eye_left] (the model built for side 0),
    exceeds [WINKING_RIGHT_THRESHOLD] and exceeds the ratio read by
    [get_bl] (that of [eye_right]) by at least
    [WINKING_EYE_DIFF * WINKING_RIGHT_THRESHOLD]. *)
Theorem right_wink_iff self (el er : Eye.t) :
  pupils_located self = true ->
  eye_left self = Some el ->
  eye_right self = Some er ->
  ~ (BLINKING_THRESHOLD < Eye.blinking el /\
     BLINKING_THRESHOLD < Eye.blinking er)%Q ->
  get_br self = Ok (Some (Eye.blinking el)) /\
  get_bl self = Ok (Some (Eye.blinking er)) /\
  (true_gaze_blinking self = Ok 2 <->
   (WINKING_RIGHT_THRESHOLD < Eye.blinking el /\
    WINKING_EYE_DIFF * WINKING_RIGHT_THRESHOLD
    <= Eye.blinking el - Eye.blinking er)%Q).
Proof.
  intros Hloc Hl Hr Hnb.
  assert (Hbr : get_br self = Ok (Some (Eye.blinking el)))
    by (unfold get_br; rewrite Hloc, Hl; reflexivity).
  assert (Hbl : get_bl self = Ok (Some (Eye.blinking er)))
    by (unfold get_bl; rewrite Hloc, Hr; reflexivity).
  split; [assumption|]. split; [assumption|].
  rewrite (true_gaze_blinking_located self _ _ Hloc Hbl Hbr).
  rewrite <- wink_condition.
  destruct (Qlt_bool BLINKING_THRESHOLD (Eye.blinking er)
            && Qlt_bool BLINKING_THRESHOLD (Eye.blinking el)) eqn:Eb.
  - apply blink_condition in Eb. tauto.
  - destruct (Qlt_bool WINKING_RIGHT_THRESHOLD (Eye.blinking el)
              && Qle_bool (WINKING_EYE_DIFF * WINKING_RIGHT_THRESHOLD)
                          (Eye.blinking el - Eye.blinking er)).
    + tauto.
    + split; [|discriminate].
      match goal with
      | |- Ok (if ?c then _ else _) = _ -> _ => destruct c; intros [=]
      end.
Qed.

End RightWink.

(** C2, as stated, fails: the state whose [eye_left] model is shut (4.6)
    and whose [eye_right] model is open (4.0) is classified 2, although
    the closure ratio of the model of side RIGHT does not exceed
    [WINKING_RIGHT_THRESHOLD]. *)
Lemma right_wink_not_right_model :
  ~ (forall (self : GazeTracking unit unit) (el er : Eye.t),
        pupils_located self = true ->
        eye_left self = Some el ->
        eye_right self = Some er ->
        ~ (BLINKING_THRESHOLD < Eye.blinking er /\
           BLINKING_THRESHOLD < Eye.blinking el)%Q ->
        (true_gaze_blinking self = Ok 2 <->
         (WINKING_RIGHT_THRESHOLD < Eye.blinking er /\
          WINKING_EYE_DIFF * WINKING_RIGHT_THRESHOLD
          <= Eye.blinking er - Eye.blinking el)%Q)).
Proof.
  intros H.
  specialize (H Samples.left_model_shut _ _ eq_refl eq_refl eq_refl).
  assert (Hnb : ~ (BLINKING_THRESHOLD < 4 /\ BLINKING_THRESHOLD < 4.6)%Q).
  { intros [Hlt _]. vm_compute in Hlt. discriminate. }
  destruct (H Hnb) as [Hto _].
  destruct (Hto eq_refl) as [Hlt _].
  vm_compute in Hlt. discriminate.
Qed.

(** ** Direction classification *)

Section Direction.

Context {Frame Calibration : Type}.
Implicit Type self : GazeTracking Frame Calibration.

Lemma direction_predicates self (h v : Q) :
  pupils_located self = true ->
  horizontal_ratio self = Ok (Some h) ->
  vertical_ratio self = Ok (Some v) ->
  is_right self = Ok (Some (Qle_bool h RIGHT_THRESHOLD)) /\
  is_left self = Ok (Some (Qle_bool LEFT_THRESHOLD h)) /\
  is_up self = Ok (Some (Qle_bool v TOP_THRESHOLD)) /\
  is_bottom self = Ok (Some (Qle_bool BOTTOM_THRESHOLD v)).
Proof.
  intros Hloc Hh Hv. unfold is_right, is_left, is_up, is_bottom.
  rewrite Hloc, Hh, Hv. repeat split; reflexivity.
Qed.

(** The offsets in the order the source tests them: left before right,
    up before bottom. *)
Lemma true_gaze_direction_located self (h v : Q) :
  pupils_located self = true ->
  horizontal_ratio self = Ok (Some h) ->
  vertical_ratio self = Ok (Some v) ->
  true_gaze_direction self
  = Ok ((if Qle_bool LEFT_THRESHOLD h then 0
         else if Qle_bool h RIGHT_THRESHOLD then 2 else 1)
        + (if Qle_bool v TOP_THRESHOLD then 0
           else if Qle_bool BOTTOM_THRESHOLD v then 6 else 3)).
Proof.
  intros Hloc Hh Hv.
  destruct (direction_predicates self h v Hloc Hh Hv) as (Hr & Hl & Hu & Hb).
  unfold true_gaze_direction. rewrite Hloc, Hl, Hr, Hu, Hb. simpl.
  destruct (Qle_bool LEFT_THRESHOLD h), (Qle_bool h RIGHT_THRESHOLD),
    (Qle_bool v TOP_THRESHOLD), (Qle_bool BOTTOM_THRESHOLD v); reflexivity.
Qed.

(** The thresholds are ordered, so no ratio is in two zones. *)
Lemma left_right_disjoint (h : Q) :
  Qle_bool h RIGHT_THRESHOLD = true -> Qle_bool LEFT_THRESHOLD h = false.
Proof.
  intros H. apply Qle_bool_iff in H. apply Qle_bool_false_iff.
  unfold RIGHT_THRESHOLD, LEFT_THRESHOLD in *. lra.
Qed.






(** C3, as amended: ratios [(0.20, 0.20)] give index 2 (top-right),
    [(0.50, 0.50)] give 4 (true center) and [(0.80, 0.90)] give 6
    (bottom-left): a small horizontal ratio is a gaze to the right. *)
Theorem example_directions self (h v : Q) :
  pupils_located self = true ->
  horizontal_ratio self = Ok (Some h) ->
  vertical_ratio self = Ok (Some v) ->
  ((h == 0.20 /\ v == 0.20)%Q -> true_gaze_direction self = Ok 2) /\
  ((h == 0.50 /\ v == 0.50)%Q -> true_gaze_direction self = Ok 4) /\
  ((h == 0.80 /\ v == 0.90)%Q -> true_gaze_direction self = Ok 6).
Proof.
  intros Hloc Hh Hv.
  rewrite (true_gaze_direction_located self h v Hloc Hh Hv).
  repeat split; intros [Eh Ev];
    rewrite (Qle_bool_compat _ _ _ _ (Qeq_refl LEFT_THRESHOLD) Eh),
            (Qle_bool_compat _ _ _ _ Eh (Qeq_refl RIGHT_THRESHOLD)),
            (Qle_bool_compat _ _ _ _ Ev (Qeq_refl TOP_THRESHOLD)),
            (Qle_bool_compat _ _ _ _ (Qeq_refl BOTTOM_THRESHOLD) Ev);
    reflexivity.
Qed.

End Direction.

(** C3, as stated, fails: at ratios [(0.20, 0.20)] the index is 2, not
    0. *)
Lemma example_directions_not_0_8 :
  ~ (forall (self : GazeTracking unit unit) (h v : Q),
        pupils_located self = true ->
        horizontal_ratio self = Ok (Some h) ->
        vertical_ratio self = Ok (Some v) ->
        ((h == 0.20 /\ v == 0.20)%Q -> true_gaze_direction self = Ok 0) /\
        ((h == 0.50 /\ v == 0.50)%Q -> true_gaze_direction self = Ok 4) /\
        ((h == 0.80 /\ v == 0.90)%Q -> true_gaze_direction self = Ok 8)).
Proof.
  intros H.
  destruct (H Samples.gaze_02_02 _ _ eq_refl eq_refl eq_refl) as (H0 & _).
  assert (E : ((40 # 200) == 0.20 /\ (40 # 200) == 0.20)%Q)
    by (split; reflexivity).
  specialize (H0 E). vm_compute in H0. discriminate H0.
Qed.


(** ** Ratios *)

Section Ratios.

Context {Frame Calibration : Type}.
Implicit Type self : GazeTracking Frame Calibration.

Lemma ratio_in_range (p : Z) (c : Q) :
  in_travel_range p c ->
  truediv (inject_Z p) (c * 2 - 10) = Ok (inject_Z p / (c * 2 - 10))%Q /\
  (0 <= inject_Z p / (c * 2 - 10) <= 1)%Q.
Proof.
  intros (Hd & H0 & H1). split.
  - apply truediv_ok. intros E. rewrite E in Hd. exact (Qlt_irrefl 0 Hd).
  - split.
    + apply Qle_shift_div_l; [exact Hd|]. now rewrite Qmult_0_l.
    + apply Qle_shift_div_r; [exact Hd|]. now rewrite Qmult_1_l.
Qed.

Lemma average_in_unit (a b : Q) :
  (0 <= a <= 1 -> 0 <= b <= 1 -> 0 <= (a + b) / 2 <= 1)%Q.
Proof.
  intros Ha Hb. split.
  - apply Qle_shift_div_l; lra.
  - apply Qle_shift_div_r; lra.
Qed.

(** X23: with pupils located, when on an axis both pupil coordinates
    lie within the positive travel range [2 * center - 10] of their eye
    region, the ratio of that axis is the mean over both eyes of
    [pupil / (2 * center - 10)] and lies in [[0, 1]]. *)
Theorem ratios_in_unit_interval self el lx ly er rx ry :
  located_eye (eye_left self) el lx ly ->
  located_eye (eye_right self) er rx ry ->
  (in_travel_range lx (fst (Eye.center el)) ->
   in_travel_range rx (fst (Eye.center er)) ->
   exists h,
     horizontal_ratio self = Ok (Some h) /\
     h = ((inject_Z lx / (fst (Eye.center el) * 2 - 10)
           + inject_Z rx / (fst (Eye.center er) * 2 - 10)) / 2)%Q /\
     (0 <= h <= 1)%Q) /\
  (in_travel_range ly (snd (Eye.center el)) ->
   in_travel_range ry (snd (Eye.center er)) ->
   exists v,
     vertical_ratio self = Ok (Some v) /\
     v = ((inject_Z ly / (snd (Eye.center el) * 2 - 10)
           + inject_Z ry / (snd (Eye.center er) * 2 - 10)) / 2)%Q /\
     (0 <= v <= 1)%Q).
Proof.
  intros Hl Hr.
  assert (Hloc := pupils_located_intro self _ _ _ _ _ _ Hl Hr).
  split; intros Rl Rr;
    destruct (ratio_in_range _ _ Rl) as [El Bl];
    destruct (ratio_in_range _ _ Rr) as [Er Br];
    eexists; (split; [|split; [reflexivity|]]).
  - unfold horizontal_ratio. rewrite Hloc.
    rewrite (located_pupil_ratio_x _ _ _ _ Hl), El.
    rewrite (located_pupil_ratio_x _ _ _ _ Hr), Er.
    reflexivity.
  - apply average_in_unit; assumption.
  - unfold vertical_ratio. rewrite Hloc.
    rewrite (located_pupil_ratio_y _ _ _ _ Hl), El.
    rewrite (located_pupil_ratio_y _ _ _ _ Hr), Er.
    reflexivity.
  - apply average_in_unit; assumption.
Qed.

Lemma nonzero_denominators_inv self el lx ly er rx ry :
  located_eye (eye_left self) el lx ly ->
  located_eye (eye_right self) er rx ry ->
  nonzero_denominators self = true ->
  (~ fst (Eye.center el) * 2 - 10 == 0 /\
   ~ snd (Eye.center el) * 2 - 10 == 0 /\
   ~ fst (Eye.center er) * 2 - 10 == 0 /\
   ~ snd (Eye.center er) * 2 - 10 == 0)%Q.
Proof.
  intros Hl Hr. unfold nonzero_denominators.
  apply located_eye_Some in Hl as [-> _].
  apply located_eye_Some in Hr as [-> _].
  simpl. rewrite !andb_true_iff, !negb_true_iff.
  intros [[A B] [C D]].
  repeat split; intros E; apply Qeq_bool_iff in E; congruence.
Qed.

Lemma ratios_return self el lx ly er rx ry :
  located_eye (eye_left self) el lx ly ->
  located_eye (eye_right self) er rx ry ->
  nonzero_denominators self = true ->
  (exists h, horizontal_ratio self = Ok (Some h)) /\
  (exists v, vertical_ratio self = Ok (Some v)).
Proof.
  intros Hl Hr Hnz.
  destruct (nonzero_denominators_inv self _ _ _ _ _ _ Hl Hr Hnz)
    as (A & B & C & D).
  assert (Hloc := pupils_located_intro self _ _ _ _ _ _ Hl Hr).
  unfold horizontal_ratio, vertical_ratio. rewrite Hloc.
  rewrite (located_pupil_ratio_x _ _ _ _ Hl), (truediv_ok _ _ A).
  rewrite (located_pupil_ratio_x _ _ _ _ Hr), (truediv_ok _ _ C).
  rewrite (located_pupil_ratio_y _ _ _ _ Hl), (truediv_ok _ _ B).
  rewrite (located_pupil_ratio_y _ _ _ _ Hr), (truediv_ok _ _ D).
  split; eexists; reflexivity.
Qed.

End Ratios.

(** C4: the code does not keep the ratio within [[0, 1]]: a pupil at
    column 28 of a region thirty pixels wide (center 15) gives 28/20 on
    both eyes, and [horizontal_ratio] returns 1.4. *)
Lemma ratio_at_edge :
  pupils_located Samples.pupil_at_edge = true /\
  (exists h,
      horizontal_ratio Samples.pupil_at_edge = Ok (Some h) /\
      (h == 1.4)%Q /\ ~ (h <= 1)%Q) /\
  ~ (forall self : GazeTracking unit unit,
        pupils_located self = true ->
        exists h v,
          horizontal_ratio self = Ok (Some h) /\
          vertical_ratio self = Ok (Some v) /\
          (0 <= h <= 1)%Q /\ (0 <= v <= 1)%Q).
Proof.
  split; [reflexivity|]. split.
  - eexists. split; [reflexivity|]. split; [reflexivity|].
    intros Hle. vm_compute in Hle. apply Hle. reflexivity.
  - intros H.
    destruct (H Samples.pupil_at_edge eq_refl)
      as (h & v & Hh & _ & [_ Hle] & _).
    vm_compute in Hh. injection Hh as <-.
    vm_compute in Hle. apply Hle. reflexivity.
Qed.

(** ** Absence, sentinels and faults *)

Section Queries.

Context {Frame Calibration : Type}.
Implicit Type self : GazeTracking Frame Calibration.

(** C6: when the pupils are not located, [true_gaze_direction] and
    [true_gaze_blinking] return -1 and the ratio and coordinate queries
    return [None]. *)
Theorem sentinels_when_not_located self :
  pupils_located self = false ->
  true_gaze_direction self = Ok (-1) /\
  true_gaze_blinking self = Ok (-1) /\
  horizontal_ratio self = Ok None /\
  vertical_ratio self = Ok None /\
  pupil_left_coords self = Ok None /\
  pupil_right_coords self = Ok None.
Proof.
  intros H.
  unfold true_gaze_direction, true_gaze_blinking, horizontal_ratio,
    vertical_ratio, pupil_left_coords, pupil_right_coords.
  rewrite H. repeat split; reflexivity.
Qed.

(** C8: with pupils located, both eye models hold their pupil and each
    coordinate query returns [origin + pupil] of its eye; otherwise both
    return [None]; so the two results are defined together or absent
    together. *)
Theorem pupil_coords_pair self :
  (pupils_located self = true ->
   exists el lx ly er rx ry,
     located_eye (eye_left self) el lx ly /\
     located_eye (eye_right self) er rx ry /\
     pupil_left_coords self
     = Ok (Some (fst (Eye.origin el) + lx, snd (Eye.origin el) + ly)) /\
     pupil_right_coords self
     = Ok (Some (fst (Eye.origin er) + rx, snd (Eye.origin er) + ry))) /\
  (pupils_located self = false ->
   pupil_left_coords self = Ok None /\ pupil_right_coords self = Ok None) /\
  ((exists l r, pupil_left_coords self = Ok (Some l) /\
                pupil_right_coords self = Ok (Some r)) \/
   (pupil_left_coords self = Ok None /\ pupil_right_coords self = Ok None)).
Proof.
  assert (Htrue : pupils_located self = true ->
    exists el lx ly er rx ry,
     located_eye (eye_left self) el lx ly /\
     located_eye (eye_right self) er rx ry /\
     pupil_left_coords self
     = Ok (Some (fst (Eye.origin el) + lx, snd (Eye.origin el) + ly)) /\
     pupil_right_coords self
     = Ok (Some (fst (Eye.origin er) + rx, snd (Eye.origin er) + ry))).
  { intros Hloc.
    destruct (pupils_located_inv self Hloc)
      as (el & lx & ly & er & rx & ry & Hl & Hr).
    exists el, lx, ly, er, rx, ry.
    unfold pupil_left_coords, pupil_right_coords. rewrite Hloc.
    rewrite (located_pupil_coords _ _ _ _ Hl).
    rewrite (located_pupil_coords _ _ _ _ Hr).
    repeat split; assumption. }
  assert (Hfalse : pupils_located self = false ->
    pupil_left_coords self = Ok None /\ pupil_right_coords self = Ok None).
  { intros Hloc. unfold pupil_left_coords, pupil_right_coords.
    rewrite Hloc. split; reflexivity. }
  split; [exact Htrue|]. split; [exact Hfalse|].
  destruct (pupils_located self).
  - left. destruct (Htrue eq_refl)
      as (el & lx & ly & er & rx & ry & _ & _ & Hl & Hr).
    eexists. eexists. split; eassumption.
  - right. exact (Hfalse eq_refl).
Qed.

End Queries.

(** C5: not every query returns: in a region ten pixels wide the
    denominator [2 * 5 - 10] is zero, the pupils are located, and
    [horizontal_ratio] and [true_gaze_direction] raise
    [ZeroDivisionError]. *)
Lemma zero_denominator_raises :
  pupils_located Samples.narrow_region = true /\
  horizontal_ratio Samples.narrow_region = Raise ZeroDivisionError /\
  true_gaze_direction Samples.narrow_region = Raise ZeroDivisionError /\
  ~ (forall self : GazeTracking unit unit,
        returns (pupil_left_coords self) /\
        returns (pupil_right_coords self) /\
        returns (horizontal_ratio self) /\
        returns (vertical_ratio self) /\
        returns (true_gaze_direction self) /\
        returns (true_gaze_blinking self)).
Proof.
  repeat split; try reflexivity.
  intros H.
  destruct (H Samples.narrow_region) as (_ & _ & [r Hr] & _).
  vm_compute in Hr. discriminate Hr.
Qed.

(** ** Frame ingestion *)

Section RefreshProperties.

Context {Frame Calibration Gray Face Landmarks : Type}.

Variable cvtColor : Frame -> result Gray.
Variable _face_detector : Gray -> result (list Face).
Variable _predictor : Gray -> Face -> result Landmarks.
Variable Eye_init :
  Gray -> Landmarks -> Z -> Calibration -> result Eye.t * Calibration.

Implicit Type self : GazeTracking Frame Calibration.

Lemma _analyze_try_no_face (gray : Gray) self :
  _analyze_try _predictor Eye_init gray [] self = (Raise IndexError, self).
Proof. reflexivity. Qed.

(** C9: on a frame where the face detector returns the empty sequence,
    [refresh] returns normally, stores the frame, sets both eye models to
    [None] and leaves the calibration alone; [pupils_located] is then
    false. *)
Theorem refresh_no_face self (f : Frame) (gray : Gray) :
  cvtColor f = Ok gray ->
  _face_detector gray = Ok [] ->
  refresh cvtColor _face_detector _predictor Eye_init self f
  = (Ok tt, mkGaze (Some f) None None (calibration self)) /\
  pupils_located (snd (refresh cvtColor _face_detector _predictor
                               Eye_init self f)) = false.
Proof.
  intros Hgray Hfaces.
  assert (E : refresh cvtColor _face_detector _predictor Eye_init self f
              = (Ok tt, mkGaze (Some f) None None (calibration self))).
  { unfold refresh, _analyze. simpl.
    rewrite Hgray, Hfaces, _analyze_try_no_face. reflexivity. }
  split; [exact E|]. rewrite E. reflexivity.
Qed.

End RefreshProperties.

(** ** The theorems at concrete states *)

Module Examples.

Import Samples.

(** Both eyes shut: the right-wink test alone would succeed
    ([5.5 > 4.5] and [5.5 - 5 >= 0.36]), the answer is still 3. *)
Lemma full_blink_example :
  is_winking_right eyes_shut = Ok (Some true) /\
  true_gaze_blinking eyes_shut = Ok 3.
Proof.
  split; [reflexivity|].
  apply (full_blink_returns_3 eyes_shut 5 5.5); reflexivity.
Defined.

Lemma right_wink_example :
  get_br left_model_shut = Ok (Some 4.6%Q) /\
  get_bl left_model_shut = Ok (Some 4%Q) /\
  (true_gaze_blinking left_model_shut = Ok 2 <->
   (WINKING_RIGHT_THRESHOLD < 4.6 /\
    WINKING_EYE_DIFF * WINKING_RIGHT_THRESHOLD <= 4.6 - 4)%Q).
Proof.
  refine (right_wink_iff left_model_shut (eye 12 7 15 12 4.6)
            (eye 12 7 15 12 4) eq_refl eq_refl eq_refl _).
  intros [H _]. vm_compute in H. discriminate H.
Defined.

Lemma winks_exclusive_example :
  ~ (is_winking_right left_model_shut = Ok (Some true) /\
     is_winking_left left_model_shut = Ok (Some true)).
Proof. exact (winks_exclusive left_model_shut eq_refl). Defined.

Lemma example_directions_example :
  true_gaze_direction gaze_02_02 = Ok 2 /\
  true_gaze_direction gaze_05_05 = Ok 4 /\
  true_gaze_direction gaze_08_09 = Ok 6.
Proof.
  split; [|split].
  - apply (example_directions gaze_02_02 (40 # 200) (40 # 200)
             eq_refl eq_refl eq_refl).
    split; reflexivity.
  - apply (example_directions gaze_05_05 (100 # 200) (100 # 200)
             eq_refl eq_refl eq_refl).
    split; reflexivity.
  - apply (example_directions gaze_08_09 (160 # 200) (180 # 200)
             eq_refl eq_refl eq_refl).
    split; reflexivity.
Defined.


Lemma ratios_in_unit_interval_example :
  exists h, horizontal_ratio gaze_05_05 = Ok (Some h) /\ (0 <= h <= 1)%Q.
Proof.
  destruct (ratios_in_unit_interval gaze_05_05
              (eye 5 5 10 10 3) 5 5 (eye 5 5 10 10 3) 5 5
              (located_eye_intro _ _ _ _ _) (located_eye_intro _ _ _ _ _))
    as [Hh _].
  assert (R : in_travel_range 5 10).
  { unfold in_travel_range. repeat split; vm_compute; discriminate. }
  destruct (Hh R R) as (h & Eh & _ & Bh).
  exists h. split; assumption.
Defined.

Lemma sentinels_example :
  true_gaze_direction one_pupil = Ok (-1) /\
  true_gaze_blinking one_pupil = Ok (-1) /\
  horizontal_ratio one_pupil = Ok None /\
  vertical_ratio one_pupil = Ok None /\
  pupil_left_coords one_pupil = Ok None /\
  pupil_right_coords one_pupil = Ok None.
Proof. exact (sentinels_when_not_located one_pupil eq_refl). Defined.

Lemma pupil_coords_example :
  (exists l r, pupil_left_coords (state (Some (eye 12 7 15 12 3))
                                        (Some (eye 11 7 15 12 3)))
               = Ok (Some l) /\
               pupil_right_coords (state (Some (eye 12 7 15 12 3))
                                         (Some (eye 11 7 15 12 3)))
               = Ok (Some r)) \/
  (pupil_left_coords (state (Some (eye 12 7 15 12 3))
                            (Some (eye 11 7 15 12 3))) = Ok None /\
   pupil_right_coords (state (Some (eye 12 7 15 12 3))
                             (Some (eye 11 7 15 12 3))) = Ok None).
Proof.
  exact (proj2 (proj2 (pupil_coords_pair
                         (state (Some (eye 12 7 15 12 3))
                                (Some (eye 11 7 15 12 3)))))).
Defined.

(** An empty frame after a frame with a face: the eye models of the
    previous frame are dropped. *)
Lemma refresh_no_face_example :
  pupils_located tracking = true /\
  refresh cvtColor face_detector predictor Eye_init tracking []
  = (Ok tt, mkGaze (Some []) None None 2%nat) /\
  pupils_located
    (snd (refresh cvtColor face_detector predictor Eye_init tracking []))
  = false.
Proof.
  split; [reflexivity|].
  exact (refresh_no_face cvtColor face_detector predictor Eye_init
           tracking [] [] eq_refl eq_refl).
Defined.

End Examples.


(** * Further properties of the orchestrator *)

(** ** Pupil validity and the convenience predicates *)

Section Validity.

Context {Frame Calibration : Type}.
Implicit Type self : GazeTracking Frame Calibration.

(** X1: [pupils_located] is true exactly when both eye models are
    present and each holds a pupil with both coordinates defined. *)
Theorem pupils_located_iff self :
  pupils_located self = true <->
  exists el lx ly er rx ry,
    located_eye (eye_left self) el lx ly /\
    located_eye (eye_right self) er rx ry.
Proof.
  split.
  - apply pupils_located_inv.
  - intros (el & lx & ly & er & rx & ry & Hl & Hr).
    exact (pupils_located_intro self _ _ _ _ _ _ Hl Hr).
Qed.

(** X2: when the pupils are not located, the accessors [get_bl] and
    [get_br] and the eight predicates return [None]; none raises. *)
Theorem predicates_absent self :
  pupils_located self = false ->
  get_bl self = Ok None /\ get_br self = Ok None /\
  is_right self = Ok None /\ is_left self = Ok None /\
  is_center self = Ok None /\
  is_up self = Ok None /\ is_bottom self = Ok None /\
  is_blinking self = Ok None /\
  is_winking_right self = Ok None /\ is_winking_left self = Ok None.
Proof.
  intros H.
  unfold get_bl, get_br, is_right, is_left, is_center, is_up, is_bottom,
    is_blinking, is_winking_right, is_winking_left.
  rewrite H. repeat split; reflexivity.
Qed.

(** X3: with pupils located and a defined horizontal ratio, [is_right],
    [is_left] and [is_center] each return a boolean, and exactly one of
    the three is true. *)
Theorem horizontal_zones_partition self (h : Q) :
  pupils_located self = true ->
  horizontal_ratio self = Ok (Some h) ->
  exists r l c : bool,
    is_right self = Ok (Some r) /\
    is_left self = Ok (Some l) /\
    is_center self = Ok (Some c) /\
    ((r = true /\ l = false /\ c = false) \/
     (r = false /\ l = true /\ c = false) \/
     (r = false /\ l = false /\ c = true)).
Proof.
  intros Hloc Hh.
  exists (Qle_bool h RIGHT_THRESHOLD), (Qle_bool LEFT_THRESHOLD h),
    (negb (Qle_bool h RIGHT_THRESHOLD) && negb (Qle_bool LEFT_THRESHOLD h)).
  assert (Hr : is_right self = Ok (Some (Qle_bool h RIGHT_THRESHOLD)))
    by (unfold is_right; rewrite Hloc, Hh; reflexivity).
  assert (Hl : is_left self = Ok (Some (Qle_bool LEFT_THRESHOLD h)))
    by (unfold is_left; rewrite Hloc, Hh; reflexivity).
  split; [exact Hr|]. split; [exact Hl|]. split.
  - unfold is_center. rewrite Hloc, Hr, Hl. simpl.
    destruct (Qle_bool h RIGHT_THRESHOLD), (Qle_bool LEFT_THRESHOLD h);
      reflexivity.
  - destruct (Qle_bool h RIGHT_THRESHOLD) eqn:E.
    + rewrite (left_right_disjoint h E). left. repeat split.
    + destruct (Qle_bool LEFT_THRESHOLD h); simpl.
      * right; left. repeat split.
      * right; right. repeat split.
Qed.

(** X4: with pupils located and a defined vertical ratio, [is_up] and
    [is_bottom] each return a boolean and are never both true. *)
Theorem vertical_zones_disjoint self (v : Q) :
  pupils_located self = true ->
  vertical_ratio self = Ok (Some v) ->
  exists u b : bool,
    is_up self = Ok (Some u) /\
    is_bottom self = Ok (Some b) /\
    ~ (u = true /\ b = true).
Proof.
  intros Hloc Hv.
  exists (Qle_bool v TOP_THRESHOLD), (Qle_bool BOTTOM_THRESHOLD v).
  split; [unfold is_up; rewrite Hloc, Hv; reflexivity|].
  split; [unfold is_bottom; rewrite Hloc, Hv; reflexivity|].
  intros [Hu Hb]. apply Qle_bool_iff in Hu, Hb.
  unfold TOP_THRESHOLD, BOTTOM_THRESHOLD in *. lra.
Qed.

End Validity.

(** ** The blink status *)

Section BlinkStatus.

Context {Frame Calibration : Type}.
Implicit Type self : GazeTracking Frame Calibration.

(** X5: [true_gaze_blinking] always returns, its value lies between -1
    and 3, and it is -1 exactly when the pupils are not located. *)
Theorem true_gaze_blinking_range self :
  exists n,
    true_gaze_blinking self = Ok n /\
    -1 <= n <= 3 /\
    (n = -1 <-> pupils_located self = false).
Proof.
  destruct (pupils_located self) eqn:Hloc.
  - destruct (pupils_located_inv self Hloc)
      as (el & lx & ly & er & rx & ry & Hl & Hr).
    destruct (located_get_bl self _ _ _ _ _ _ Hl Hr) as [Hbl Hbr].
    rewrite (true_gaze_blinking_located self _ _ Hloc Hbl Hbr).
    eexists. split; [reflexivity|].
    repeat match goal with
           | |- context [if ?c then _ else _] => destruct c
           end; (split; [lia|split; [lia|discriminate]]).
  - exists (-1). unfold true_gaze_blinking. rewrite Hloc.
    split; [reflexivity|]. split; [lia|]. split; reflexivity.
Qed.

Lemma left_wink_excludes_right (bl br : Q) :
  Qlt_bool WINKING_LEFT_THRESHOLD bl
  && Qle_bool (WINKING_EYE_DIFF * WINKING_LEFT_THRESHOLD) (bl - br) = true ->
  Qlt_bool WINKING_RIGHT_THRESHOLD br
  && Qle_bool (WINKING_EYE_DIFF * WINKING_RIGHT_THRESHOLD) (br - bl) = false.
Proof.
  intros Hw. apply wink_condition in Hw. destruct Hw as [_ Hw].
  apply not_true_is_false. intros E.
  apply wink_condition in E. destruct E as [_ E].
  unfold WINKING_EYE_DIFF, WINKING_RIGHT_THRESHOLD,
    WINKING_LEFT_THRESHOLD in *. lra.
Qed.

Lemma decision_list_cases (b r l : bool) :
  (l = true -> r = false) ->
  let n := if b then 3 else if r then 2 else if l then 1 else 0 in
  let res (c : bool) : result (option bool) := Ok (Some c) in
  (Ok n = Ok 3 <-> res b = res true) /\
  (Ok n = Ok 2 <-> res b = res false /\ res r = res true) /\
  (Ok n = Ok 1 <-> res b = res false /\ res l = res true) /\
  (Ok n = Ok 0 <->
   res b = res false /\ res r = res false /\ res l = res false).
Proof.
  intros Hex. destruct b, l; try rewrite (Hex eq_refl); try destruct r;
    simpl; repeat split; try discriminate; try reflexivity;
    try (intros [? ?]; discriminate);
    try (intros (? & ? & ?); discriminate).
Qed.

(** X6: with pupils located, the status agrees with the three
    predicates: 3 iff [is_blinking]; 2 iff not blinking and
    [is_winking_right]; 1 iff not blinking and [is_winking_left] (the
    right wink is then excluded of itself); 0 iff none of the three. *)
Theorem status_agrees_with_predicates self :
  pupils_located self = true ->
  (true_gaze_blinking self = Ok 3 <-> is_blinking self = Ok (Some true)) /\
  (true_gaze_blinking self = Ok 2 <->
   is_blinking self = Ok (Some false) /\
   is_winking_right self = Ok (Some true)) /\
  (true_gaze_blinking self = Ok 1 <->
   is_blinking self = Ok (Some false) /\
   is_winking_left self = Ok (Some true)) /\
  (true_gaze_blinking self = Ok 0 <->
   is_blinking self = Ok (Some false) /\
   is_winking_right self = Ok (Some false) /\
   is_winking_left self = Ok (Some false)).
Proof.
  intros Hloc.
  destruct (pupils_located_inv self Hloc)
    as (el & lx & ly & er & rx & ry & Hel & Her).
  destruct (located_get_bl self _ _ _ _ _ _ Hel Her) as [Hbl Hbr].
  destruct (closure_predicates self _ _ Hloc Hbl Hbr) as (Hb & Hr & Hl).
  rewrite (true_gaze_blinking_located self _ _ Hloc Hbl Hbr), Hb, Hr, Hl.
  exact (decision_list_cases _ _ _
           (left_wink_excludes_right (Eye.blinking er) (Eye.blinking el))).
Qed.

(** X7: with pupils located and the full-blink condition failing, the
    status is 1 exactly when the ratio read by [get_bl], that of
    [eye_right], exceeds [WINKING_LEFT_THRESHOLD] and exceeds the ratio
    of [eye_left] by at least
    [WINKING_EYE_DIFF * WINKING_LEFT_THRESHOLD]. *)
Theorem left_wink_iff self (el er : Eye.t) :
  pupils_located self = true ->
  eye_left self = Some el ->
  eye_right self = Some er ->
  ~ (BLINKING_THRESHOLD < Eye.blinking el /\
     BLINKING_THRESHOLD < Eye.blinking er)%Q ->
  (true_gaze_blinking self = Ok 1 <->
   (WINKING_LEFT_THRESHOLD < Eye.blinking er /\
    WINKING_EYE_DIFF * WINKING_LEFT_THRESHOLD
    <= Eye.blinking er - Eye.blinking el)%Q).
Proof.
  intros Hloc Hl Hr Hnb.
  assert (Hbr : get_br self = Ok (Some (Eye.blinking el)))
    by (unfold get_br; rewrite Hloc, Hl; reflexivity).
  assert (Hbl : get_bl self = Ok (Some (Eye.blinking er)))
    by (unfold get_bl; rewrite Hloc, Hr; reflexivity).
  rewrite (true_gaze_blinking_located self _ _ Hloc Hbl Hbr).
  destruct (Qlt_bool BLINKING_THRESHOLD (Eye.blinking er)
            && Qlt_bool BLINKING_THRESHOLD (Eye.blinking el)) eqn:Eb.
  { apply blink_condition in Eb. tauto. }
  rewrite <- (wink_condition WINKING_LEFT_THRESHOLD).
  destruct (Qlt_bool WINKING_RIGHT_THRESHOLD (Eye.blinking el)
            && Qle_bool (WINKING_EYE_DIFF * WINKING_RIGHT_THRESHOLD)
                        (Eye.blinking el - Eye.blinking er)) eqn:Er.
  - apply wink_condition in Er. destruct Er as [_ Er].
    split; [intros [=]|].
    intros Hw. apply wink_condition in Hw. destruct Hw as [_ Hw].
    unfold WINKING_EYE_DIFF, WINKING_RIGHT_THRESHOLD,
      WINKING_LEFT_THRESHOLD in *. lra.
  - destruct (Qlt_bool WINKING_LEFT_THRESHOLD (Eye.blinking er)
              && Qle_bool (WINKING_EYE_DIFF * WINKING_LEFT_THRESHOLD)
                          (Eye.blinking er - Eye.blinking el)).
    + tauto.
    + split; [intros [=]|discriminate].
Qed.

(** X8: with pupils located, when the two closure ratios differ by less
    than [WINKING_EYE_DIFF * WINKING_LEFT_THRESHOLD], the smaller of the
    two asymmetry guards, no wink is reported: the status is 0 or 3. *)
Theorem no_wink_when_symmetric self (bl br : Q) :
  pupils_located self = true ->
  get_bl self = Ok (Some bl) ->
  get_br self = Ok (Some br) ->
  (br - bl < WINKING_EYE_DIFF * WINKING_LEFT_THRESHOLD)%Q ->
  (bl - br < WINKING_EYE_DIFF * WINKING_LEFT_THRESHOLD)%Q ->
  true_gaze_blinking self = Ok 0 \/ true_gaze_blinking self = Ok 3.
Proof.
  intros Hloc Hbl Hbr H1 H2.
  rewrite (true_gaze_blinking_located self bl br Hloc Hbl Hbr).
  destruct (Qlt_bool BLINKING_THRESHOLD bl
            && Qlt_bool BLINKING_THRESHOLD br); [right; reflexivity|].
  assert (Er : Qle_bool (WINKING_EYE_DIFF * WINKING_RIGHT_THRESHOLD) (br - bl)
               = false).
  { apply Qle_bool_false_iff.
    unfold WINKING_EYE_DIFF, WINKING_RIGHT_THRESHOLD,
      WINKING_LEFT_THRESHOLD in *. lra. }
  assert (El : Qle_bool (WINKING_EYE_DIFF * WINKING_LEFT_THRESHOLD) (bl - br)
               = false).
  { apply Qle_bool_false_iff. exact H2. }
  rewrite Er, El, !andb_false_r. left; reflexivity.
Qed.

End BlinkStatus.

(** ** Faults and range of the ratios and of the direction *)

Section DirectionFaults.

Context {Frame Calibration : Type}.
Implicit Type self : GazeTracking Frame Calibration.

Lemma horizontal_ratio_located self el lx ly er rx ry :
  located_eye (eye_left self) el lx ly ->
  located_eye (eye_right self) er rx ry ->
  horizontal_ratio self
  = (pupil_left <- truediv (inject_Z lx) (fst (Eye.center el) * 2 - 10)%Q ;;
     pupil_right <- truediv (inject_Z rx) (fst (Eye.center er) * 2 - 10)%Q ;;
     Ok (Some ((pupil_left + pupil_right) / 2)%Q)).
Proof.
  intros Hl Hr. unfold horizontal_ratio.
  rewrite (pupils_located_intro self _ _ _ _ _ _ Hl Hr).
  rewrite (located_pupil_ratio_x _ _ _ _ Hl).
  rewrite (located_pupil_ratio_x _ _ _ _ Hr).
  reflexivity.
Qed.

Lemma vertical_ratio_located self el lx ly er rx ry :
  located_eye (eye_left self) el lx ly ->
  located_eye (eye_right self) er rx ry ->
  vertical_ratio self
  = (pupil_left <- truediv (inject_Z ly) (snd (Eye.center el) * 2 - 10)%Q ;;
     pupil_right <- truediv (inject_Z ry) (snd (Eye.center er) * 2 - 10)%Q ;;
     Ok (Some ((pupil_left + pupil_right) / 2)%Q)).
Proof.
  intros Hl Hr. unfold vertical_ratio.
  rewrite (pupils_located_intro self _ _ _ _ _ _ Hl Hr).
  rewrite (located_pupil_ratio_y _ _ _ _ Hl).
  rewrite (located_pupil_ratio_y _ _ _ _ Hr).
  reflexivity.
Qed.

(** The mean of two quotients raises exactly when a divisor is zero. *)
Lemma mean_of_quotients_fault (a b da db : Q) (e : exn) :
  (pl <- truediv a da ;; pr <- truediv b db ;;
   Ok (Some ((pl + pr) / 2)%Q)) = Raise e
  <-> e = ZeroDivisionError /\ (da == 0 \/ db == 0)%Q.
Proof.
  unfold truediv.
  destruct (Qeq_bool da 0) eqn:Ea; simpl.
  - apply Qeq_bool_iff in Ea. split.
    + intros [= <-]. split; [reflexivity|left; exact Ea].
    + intros [-> _]. reflexivity.
  - destruct (Qeq_bool db 0) eqn:Eb; simpl.
    + apply Qeq_bool_iff in Eb. split.
      * intros [= <-]. split; [reflexivity|right; exact Eb].
      * intros [-> _]. reflexivity.
    + split; [discriminate|].
      intros [_ [H|H]]; apply Qeq_bool_iff in H; congruence.
Qed.

(** X9: [horizontal_ratio] raises only [ZeroDivisionError], and exactly
    when the pupils are located and the divisor [2 * center.x - 10] of
    one of the two eyes is zero; likewise [vertical_ratio] with
    [center.y]. *)
Theorem ratio_faults self (e : exn) :
  (horizontal_ratio self = Raise e <->
   e = ZeroDivisionError /\
   exists el lx ly er rx ry,
     located_eye (eye_left self) el lx ly /\
     located_eye (eye_right self) er rx ry /\
     (fst (Eye.center el) * 2 - 10 == 0 \/
      fst (Eye.center er) * 2 - 10 == 0)%Q) /\
  (vertical_ratio self = Raise e <->
   e = ZeroDivisionError /\
   exists el lx ly er rx ry,
     located_eye (eye_left self) el lx ly /\
     located_eye (eye_right self) er rx ry /\
     (snd (Eye.center el) * 2 - 10 == 0 \/
      snd (Eye.center er) * 2 - 10 == 0)%Q).
Proof.
  destruct (pupils_located self) eqn:Hloc.
  - destruct (pupils_located_inv self Hloc)
      as (el & lx & ly & er & rx & ry & Hl & Hr).
    rewrite (horizontal_ratio_located self _ _ _ _ _ _ Hl Hr).
    rewrite (vertical_ratio_located self _ _ _ _ _ _ Hl Hr).
    rewrite !mean_of_quotients_fault.
    split; (split;
      [intros [He Hz]; split; [exact He|];
       exists el, lx, ly, er, rx, ry; repeat split; assumption
      |intros (He & el' & lx' & ly' & er' & rx' & ry' & Hl' & Hr' & Hz);
       split; [exact He|];
       apply located_eye_Some in Hl as [Hl _];
       apply located_eye_Some in Hl' as [Hl' _];
       apply located_eye_Some in Hr as [Hr _];
       apply located_eye_Some in Hr' as [Hr' _];
       rewrite Hl in Hl'; rewrite Hr in Hr';
       injection Hl' as <-; injection Hr' as <-; exact Hz]).
  - unfold horizontal_ratio, vertical_ratio. rewrite Hloc.
    split; (split; [discriminate|]);
      intros (_ & el & lx & ly & er & rx & ry & Hl & Hr & _);
      rewrite (pupils_located_intro self _ _ _ _ _ _ Hl Hr) in Hloc;
      discriminate.
Qed.

Lemma direction_raises_horizontal self (e : exn) :
  pupils_located self = true ->
  horizontal_ratio self = Raise e ->
  true_gaze_direction self = Raise e.
Proof.
  intros Hloc Hh. unfold true_gaze_direction, is_left.
  rewrite Hloc, Hh. reflexivity.
Qed.

Lemma direction_raises_vertical self (h : Q) (e : exn) :
  pupils_located self = true ->
  horizontal_ratio self = Ok (Some h) ->
  vertical_ratio self = Raise e ->
  true_gaze_direction self = Raise e.
Proof.
  intros Hloc Hh Hv. unfold true_gaze_direction, is_left, is_right, is_up.
  rewrite Hloc, Hh, Hv. simpl.
  destruct (Qle_bool LEFT_THRESHOLD h); [reflexivity|]. simpl.
  destruct (Qle_bool h RIGHT_THRESHOLD); reflexivity.
Qed.

(** With pupils located, either a divisor is zero and the direction
    raises, or both ratios are defined. *)
Lemma direction_cases self :
  pupils_located self = true ->
  (true_gaze_direction self = Raise ZeroDivisionError /\
   nonzero_denominators self = false) \/
  (nonzero_denominators self = true /\
   exists h v,
     horizontal_ratio self = Ok (Some h) /\
     vertical_ratio self = Ok (Some v)).
Proof.
  intros Hloc.
  destruct (pupils_located_inv self Hloc)
    as (el & lx & ly & er & rx & ry & Hl & Hr).
  destruct (nonzero_denominators self) eqn:Hnz.
  - right. split; [reflexivity|].
    destruct (ratios_return self _ _ _ _ _ _ Hl Hr Hnz) as [[h Hh] [v Hv]].
    exists h, v. split; assumption.
  - left. split; [|reflexivity].
    assert (Hh := horizontal_ratio_located self _ _ _ _ _ _ Hl Hr).
    assert (Hv := vertical_ratio_located self _ _ _ _ _ _ Hl Hr).
    unfold nonzero_denominators in Hnz.
    destruct (located_eye_Some _ _ _ _ Hl) as [El _].
    destruct (located_eye_Some _ _ _ _ Hr) as [Er _].
    rewrite El, Er in Hnz. simpl in Hnz. unfold truediv in Hh, Hv.
    destruct (Qeq_bool (fst (Eye.center el) * 2 - 10) 0);
      [exact (direction_raises_horizontal self _ Hloc Hh)|].
    destruct (Qeq_bool (fst (Eye.center er) * 2 - 10) 0);
      [exact (direction_raises_horizontal self _ Hloc Hh)|].
    simpl in Hh.
    destruct (Qeq_bool (snd (Eye.center el) * 2 - 10) 0);
      [exact (direction_raises_vertical self _ _ Hloc Hh Hv)|].
    destruct (Qeq_bool (snd (Eye.center er) * 2 - 10) 0);
      [exact (direction_raises_vertical self _ _ Hloc Hh Hv)|].
    discriminate Hnz.
Qed.

(** X10: [true_gaze_direction] raises only [ZeroDivisionError], and
    exactly when the pupils are located and one of the four divisors
    [2 * center - 10] is zero; a zero vertical divisor is enough even if
    the horizontal ratio is defined. *)
Theorem direction_fault_iff self (e : exn) :
  true_gaze_direction self = Raise e <->
  e = ZeroDivisionError /\
  pupils_located self = true /\
  nonzero_denominators self = false.
Proof.
  destruct (pupils_located self) eqn:Hloc.
  - destruct (direction_cases self Hloc)
      as [[Hd Hnz]|(Hnz & h & v & Hh & Hv)].
    + rewrite Hd, Hnz. split.
      * intros [= <-]. repeat split.
      * intros (-> & _). reflexivity.
    + rewrite (true_gaze_direction_located self h v Hloc Hh Hv), Hnz.
      split; [discriminate|]. intros (_ & _ & H). discriminate H.
  - unfold true_gaze_direction. rewrite Hloc. simpl.
    split; [discriminate|]. intros (_ & H & _). discriminate H.
Qed.

(** X11: whenever [true_gaze_direction] returns, its value lies between
    -1 and 8, and it is -1 exactly when the pupils are not located. *)
Theorem true_gaze_direction_range self (n : Z) :
  true_gaze_direction self = Ok n ->
  -1 <= n <= 8 /\ (n = -1 <-> pupils_located self = false).
Proof.
  destruct (pupils_located self) eqn:Hloc.
  - destruct (direction_cases self Hloc)
      as [[Hd _]|(_ & h & v & Hh & Hv)].
    + rewrite Hd. discriminate.
    + rewrite (true_gaze_direction_located self h v Hloc Hh Hv).
      intros [= <-].
      destruct (Qle_bool LEFT_THRESHOLD h), (Qle_bool h RIGHT_THRESHOLD),
        (Qle_bool v TOP_THRESHOLD), (Qle_bool BOTTOM_THRESHOLD v);
        (split; [lia|split; [lia|discriminate]]).
  - unfold true_gaze_direction. rewrite Hloc. simpl. intros [= <-].
    split; [lia|]. split; reflexivity.
Qed.

(** X12: with pupils located and both ratios defined, the index
    determines the predicates: its column [n mod 3] is 0, 1, 2 exactly
    when [is_left], [is_center], [is_right] hold, and its row [n / 3]
    is 0 or 2 exactly when [is_up] or [is_bottom] hold. *)
Theorem index_decomposition self (h v : Q) :
  pupils_located self = true ->
  horizontal_ratio self = Ok (Some h) ->
  vertical_ratio self = Ok (Some v) ->
  exists n,
    true_gaze_direction self = Ok n /\
    (is_left self = Ok (Some true) <-> n mod 3 = 0) /\
    (is_center self = Ok (Some true) <-> n mod 3 = 1) /\
    (is_right self = Ok (Some true) <-> n mod 3 = 2) /\
    (is_up self = Ok (Some true) <-> n / 3 = 0) /\
    (is_bottom self = Ok (Some true) <-> n / 3 = 2).
Proof.
  intros Hloc Hh Hv.
  destruct (direction_predicates self h v Hloc Hh Hv) as (Hr & Hl & Hu & Hb).
  eexists. split; [exact (true_gaze_direction_located self h v Hloc Hh Hv)|].
  unfold is_center. rewrite Hloc, Hr, Hl, Hu, Hb. simpl.
  assert (Hdis := left_right_disjoint h).
  assert (Hvd : Qle_bool v TOP_THRESHOLD = true ->
                Qle_bool BOTTOM_THRESHOLD v = false).
  { intros H. apply Qle_bool_iff in H. apply Qle_bool_false_iff.
    unfold TOP_THRESHOLD, BOTTOM_THRESHOLD in *. lra. }
  destruct (Qle_bool h RIGHT_THRESHOLD);
    [rewrite (Hdis eq_refl)|destruct (Qle_bool LEFT_THRESHOLD h)];
    (destruct (Qle_bool v TOP_THRESHOLD);
     [rewrite (Hvd eq_refl)|destruct (Qle_bool BOTTOM_THRESHOLD v)]);
    simpl; repeat split; intros H; try reflexivity; try discriminate H;
    vm_compute in H; discriminate H.
Qed.

(** X13: the direction does not depend on which eye model is which:
    two states whose eye models are exchanged are located together and
    give the same index, or the same fault. *)
Theorem direction_symmetric (s1 s2 : GazeTracking Frame Calibration) :
  eye_left s1 = eye_right s2 ->
  eye_right s1 = eye_left s2 ->
  pupils_located s1 = pupils_located s2 /\
  true_gaze_direction s1 = true_gaze_direction s2.
Proof.
  intros E1 E2.
  assert (Hsw : forall a b : GazeTracking Frame Calibration,
             eye_left a = eye_right b -> eye_right a = eye_left b ->
             pupils_located a = true -> pupils_located b = true).
  { intros a b Ea Eb Ha.
    destruct (pupils_located_inv a Ha) as (el & lx & ly & er & rx & ry & Hl & Hr).
    rewrite Ea in Hl. rewrite Eb in Hr.
    exact (pupils_located_intro b _ _ _ _ _ _ Hr Hl). }
  assert (Hloc : pupils_located s1 = pupils_located s2).
  { destruct (pupils_located s1) eqn:H1, (pupils_located s2) eqn:H2;
      try reflexivity.
    - rewrite (Hsw s1 s2 E1 E2 H1) in H2. discriminate.
    - rewrite (Hsw s2 s1 (eq_sym E2) (eq_sym E1) H2) in H1. discriminate. }
  split; [exact Hloc|].
  destruct (pupils_located s1) eqn:H1.
  - symmetry in Hloc.
    destruct (pupils_located_inv s1 H1)
      as (el & lx & ly & er & rx & ry & Hl & Hr).
    assert (Hl2 := Hl). assert (Hr2 := Hr).
    rewrite E1 in Hl2. rewrite E2 in Hr2.
    assert (Hh1 := horizontal_ratio_located s1 _ _ _ _ _ _ Hl Hr).
    assert (Hv1 := vertical_ratio_located s1 _ _ _ _ _ _ Hl Hr).
    assert (Hh2 := horizontal_ratio_located s2 _ _ _ _ _ _ Hr2 Hl2).
    assert (Hv2 := vertical_ratio_located s2 _ _ _ _ _ _ Hr2 Hl2).
    unfold truediv in Hh1, Hv1, Hh2, Hv2.
    destruct (Qeq_bool (fst (Eye.center el) * 2 - 10) 0);
      destruct (Qeq_bool (fst (Eye.center er) * 2 - 10) 0);
      simpl in Hh1, Hh2;
      try (rewrite (direction_raises_horizontal s1 _ H1 Hh1),
                   (direction_raises_horizontal s2 _ Hloc Hh2);
           reflexivity).
    destruct (Qeq_bool (snd (Eye.center el) * 2 - 10) 0);
      destruct (Qeq_bool (snd (Eye.center er) * 2 - 10) 0);
      simpl in Hv1, Hv2;
      try (rewrite (direction_raises_vertical s1 _ _ H1 Hh1 Hv1),
                   (direction_raises_vertical s2 _ _ Hloc Hh2 Hv2);
           reflexivity).
    rewrite (true_gaze_direction_located s1 _ _ H1 Hh1 Hv1).
    rewrite (true_gaze_direction_located s2 _ _ Hloc Hh2 Hv2).
    set (a := (inject_Z lx / (fst (Eye.center el) * 2 - 10))%Q).
    set (b := (inject_Z rx / (fst (Eye.center er) * 2 - 10))%Q).
    set (c := (inject_Z ly / (snd (Eye.center el) * 2 - 10))%Q).
    set (d := (inject_Z ry / (snd (Eye.center er) * 2 - 10))%Q).
    assert (Eh : ((a + b) / 2 == (b + a) / 2)%Q) by (now rewrite Qplus_comm).
    assert (Ev : ((c + d) / 2 == (d + c) / 2)%Q) by (now rewrite Qplus_comm).
    rewrite (Qle_bool_compat _ _ _ _ (Qeq_refl LEFT_THRESHOLD) Eh),
            (Qle_bool_compat _ _ _ _ Eh (Qeq_refl RIGHT_THRESHOLD)),
            (Qle_bool_compat _ _ _ _ Ev (Qeq_refl TOP_THRESHOLD)),
            (Qle_bool_compat _ _ _ _ (Qeq_refl BOTTOM_THRESHOLD) Ev).
    reflexivity.
  - symmetry in Hloc. unfold true_gaze_direction. rewrite H1, Hloc.
    reflexivity.
Qed.

End DirectionFaults.

(** ** More on [refresh] *)

Section RefreshMore.

Context {Frame Calibration Gray Face Landmarks : Type}.

Variable cvtColor : Frame -> result Gray.
Variable _face_detector : Gray -> result (list Face).
Variable _predictor : Gray -> Face -> result Landmarks.
Variable Eye_init :
  Gray -> Landmarks -> Z -> Calibration -> result Eye.t * Calibration.

Implicit Type self : GazeTracking Frame Calibration.

Local Notation "'refresh''" :=
  (refresh cvtColor _face_detector _predictor Eye_init).
Local Notation "'try''" := (_analyze_try _predictor Eye_init).

(** The [try] block assigns eye models and calibration only. *)
Lemma _analyze_try_frame (gray : Gray) (faces : list Face) self :
  frame (snd (try' gray faces self)) = frame self.
Proof.
  unfold _analyze_try.
  destruct (nth_error faces 0) as [face|]; [|reflexivity].
  destruct (_predictor gray face) as [lm|]; [|reflexivity].
  destruct (Eye_init gray lm 0 (calibration self)) as [[el|] c1];
    [|reflexivity].
  simpl.
  destruct (Eye_init gray lm 1 c1) as [[er|] c2]; reflexivity.
Qed.

(** When the [try] block completes, both eye models are set. *)
Lemma _analyze_try_ok (gray : Gray) (faces : list Face) self :
  fst (try' gray faces self) = Ok tt ->
  exists el er,
    eye_left (snd (try' gray faces self)) = Some el /\
    eye_right (snd (try' gray faces self)) = Some er.
Proof.
  unfold _analyze_try.
  destruct (nth_error faces 0) as [face|]; [|discriminate].
  destruct (_predictor gray face) as [lm|]; [|discriminate].
  destruct (Eye_init gray lm 0 (calibration self)) as [[el|] c1];
    [|discriminate].
  simpl.
  destruct (Eye_init gray lm 1 c1) as [[er|] c2]; [|discriminate].
  intros _. exists el, er. split; reflexivity.
Qed.

(** X14: whatever happens afterwards, [refresh] stores the frame it is
    given: also when it raises. *)
Theorem refresh_stores_frame self (f : Frame) :
  frame (snd (refresh' self f)) = Some f.
Proof.
  unfold refresh, _analyze. simpl.
  destruct (cvtColor f) as [gray|]; [|reflexivity].
  destruct (_face_detector gray) as [faces|]; [|reflexivity].
  assert (Hf := _analyze_try_frame gray faces (set_frame (Some f) self)).
  destruct (try' gray faces (set_frame (Some f) self)) as [[[]|e] self'];
    simpl in Hf.
  - exact Hf.
  - destruct e; exact Hf.
Qed.

(** X15: when [refresh] returns normally, the two eye models are both
    present or both [None]. *)
Theorem refresh_pair_or_nothing self (f : Frame) :
  fst (refresh' self f) = Ok tt ->
  (exists el er,
      eye_left (snd (refresh' self f)) = Some el /\
      eye_right (snd (refresh' self f)) = Some er) \/
  (eye_left (snd (refresh' self f)) = None /\
   eye_right (snd (refresh' self f)) = None).
Proof.
  unfold refresh, _analyze. simpl.
  destruct (cvtColor f) as [gray|]; [|discriminate].
  destruct (_face_detector gray) as [faces|]; [|discriminate].
  assert (Hok := _analyze_try_ok gray faces (set_frame (Some f) self)).
  destruct (try' gray faces (set_frame (Some f) self)) as [[[]|e] self'].
  - intros _. left. exact (Hok eq_refl).
  - destruct e; try discriminate. intros _. right. split; reflexivity.
Qed.

(** X16: when the detector finds faces, only the first one is used: the
    eye models are those built for side 0 and side 1 from its
    landmarks, and the calibration updated by the first construction is
    the one lent to the second. *)
Theorem refresh_first_face self (f : Frame) (gray : Gray)
  (face : Face) (others : list Face) (lm : Landmarks)
  (el er : Eye.t) (c1 c2 : Calibration) :
  cvtColor f = Ok gray ->
  _face_detector gray = Ok (face :: others) ->
  _predictor gray face = Ok lm ->
  Eye_init gray lm 0 (calibration self) = (Ok el, c1) ->
  Eye_init gray lm 1 c1 = (Ok er, c2) ->
  refresh' self f = (Ok tt, mkGaze (Some f) (Some el) (Some er) c2).
Proof.
  intros Hg Hf Hp Hl Hr. unfold refresh, _analyze, _analyze_try. simpl.
  rewrite Hg, Hf. simpl. rewrite Hp, Hl. simpl. rewrite Hr. reflexivity.
Qed.

(** X17: an [IndexError] raised anywhere in the [try] block is absorbed,
    not only the one of [faces[0]]: once the grayscale conversion and
    the detection have succeeded, [refresh] never raises [IndexError],
    and when the block raised it both eye models are [None]. *)
Theorem refresh_absorbs_IndexError self (f : Frame) (gray : Gray)
  (faces : list Face) :
  cvtColor f = Ok gray ->
  _face_detector gray = Ok faces ->
  fst (refresh' self f) <> Raise IndexError /\
  (fst (try' gray faces (set_frame (Some f) self)) = Raise IndexError ->
   fst (refresh' self f) = Ok tt /\
   eye_left (snd (refresh' self f)) = None /\
   eye_right (snd (refresh' self f)) = None).
Proof.
  intros Hg Hf. unfold refresh, _analyze. simpl. rewrite Hg, Hf.
  destruct (try' gray faces (set_frame (Some f) self)) as [[[]|e] self'];
    simpl.
  - split; [discriminate|]. discriminate.
  - destruct e; simpl; (split; [discriminate|]); try discriminate.
    intros _. repeat split.
Qed.

(** X18: when the grayscale conversion or the face detection raises,
    [refresh] raises the same exception, also an [IndexError]; the frame
    is replaced but the eye models of the previous frame stay, so the
    queries keep answering from them. *)
Theorem refresh_fails_before_try self (f : Frame) (e : exn) :
  cvtColor f = Raise e \/
  (exists gray, cvtColor f = Ok gray /\ _face_detector gray = Raise e) ->
  refresh' self f
  = (Raise e,
     mkGaze (Some f) (eye_left self) (eye_right self) (calibration self)) /\
  pupils_located (snd (refresh' self f)) = pupils_located self /\
  true_gaze_direction (snd (refresh' self f)) = true_gaze_direction self /\
  true_gaze_blinking (snd (refresh' self f)) = true_gaze_blinking self.
Proof.
  intros H.
  assert (E : refresh' self f
              = (Raise e,
                 mkGaze (Some f) (eye_left self) (eye_right self)
                        (calibration self))).
  { unfold refresh, _analyze. simpl.
    destruct H as [Hg|(gray & Hg & Hf)]; rewrite Hg; [reflexivity|].
    rewrite Hf. reflexivity. }
  split; [exact E|]. rewrite E. repeat split.
Qed.

(** X19: when the eye of side 0 is built and the construction of the eye
    of side 1 raises anything but [IndexError], [refresh] raises it and
    leaves a mixed state: [eye_left] from the new frame, [eye_right]
    untouched from the previous one. *)
Theorem refresh_partial_update self (f : Frame) (gray : Gray)
  (face : Face) (others : list Face) (lm : Landmarks)
  (el : Eye.t) (c1 c2 : Calibration) (e : exn) :
  cvtColor f = Ok gray ->
  _face_detector gray = Ok (face :: others) ->
  _predictor gray face = Ok lm ->
  Eye_init gray lm 0 (calibration self) = (Ok el, c1) ->
  Eye_init gray lm 1 c1 = (Raise e, c2) ->
  e <> IndexError ->
  refresh' self f
  = (Raise e, mkGaze (Some f) (Some el) (eye_right self) c2).
Proof.
  intros Hg Hf Hp Hl Hr He. unfold refresh, _analyze, _analyze_try. simpl.
  rewrite Hg, Hf. simpl. rewrite Hp, Hl. simpl. rewrite Hr.
  destruct e; try reflexivity. contradiction.
Qed.

End RefreshMore.

(** ** Construction and annotation *)

Section AnnotationProperties.

Context {Frame Calibration : Type}.
Variable line : Frame -> Z * Z -> Z * Z -> Z * Z * Z -> Frame.
Implicit Type self : GazeTracking Frame Calibration.

(** X20: before the first [refresh] the pupils are not located, the two
    classifications return -1, and [annotated_frame] raises
    [AttributeError] for want of a frame. *)
Theorem queries_before_refresh (cal : Calibration) :
  pupils_located (__init__ (Frame := Frame) cal) = false /\
  true_gaze_direction (__init__ (Frame := Frame) cal) = Ok (-1) /\
  true_gaze_blinking (__init__ (Frame := Frame) cal) = Ok (-1) /\
  annotated_frame line (__init__ cal) = Raise AttributeError.
Proof. repeat split. Qed.

(** X21: [annotated_frame] raises exactly when no frame is stored, and
    then [AttributeError]; with a frame and pupils not located it
    returns that frame with nothing drawn. *)
Theorem annotated_frame_faults self :
  (forall e, annotated_frame line self = Raise e <->
             e = AttributeError /\ frame self = None) /\
  (forall f, frame self = Some f -> pupils_located self = false ->
             annotated_frame line self = Ok f).
Proof.
  split.
  - intros e. unfold annotated_frame.
    destruct (frame self) as [f|]; simpl.
    + split; [|intros [_ H]; discriminate H].
      destruct (pupils_located self) eqn:Hloc; [|discriminate].
      destruct (pupils_located_inv self Hloc)
        as (el & lx & ly & er & rx & ry & Hl & Hr).
      unfold pupil_left_coords, pupil_right_coords. rewrite Hloc.
      rewrite (located_pupil_coords _ _ _ _ Hl).
      rewrite (located_pupil_coords _ _ _ _ Hr).
      discriminate.
    + split; [intros [= <-]; split; reflexivity|intros [-> _]; reflexivity].
  - intros f Hf Hloc. unfold annotated_frame. rewrite Hf, Hloc. reflexivity.
Qed.

(** X22: with a frame and pupils located, [annotated_frame] draws two
    crosses of half-width 5, the first centred on the point that
    [pupil_left_coords] returns and the second on that of
    [pupil_right_coords], in this order: horizontal then vertical
    stroke. *)
Theorem annotated_frame_crosses self (f : Frame) (xl yl xr yr : Z) :
  frame self = Some f ->
  pupil_left_coords self = Ok (Some (xl, yl)) ->
  pupil_right_coords self = Ok (Some (xr, yr)) ->
  annotated_frame line self
  = Ok (line (line (line (line f (xl - 5, yl) (xl + 5, yl) (0, 255, 0))
                         (xl, yl - 5) (xl, yl + 5) (0, 255, 0))
                   (xr - 5, yr) (xr + 5, yr) (0, 255, 0))
             (xr, yr - 5) (xr, yr + 5) (0, 255, 0)).
Proof.
  intros Hf Hl Hr. unfold annotated_frame. rewrite Hf. simpl.
  destruct (pupils_located self) eqn:Hloc.
  - rewrite Hl, Hr. reflexivity.
  - unfold pupil_left_coords in Hl. rewrite Hloc in Hl. discriminate Hl.
Qed.

End AnnotationProperties.

(** ** The further properties at concrete states *)

Module MoreExamples.

Import Samples Faulty.

Lemma predicates_absent_example :
  get_bl one_pupil = Ok None /\ get_br one_pupil = Ok None /\
  is_right one_pupil = Ok None /\ is_left one_pupil = Ok None /\
  is_center one_pupil = Ok None /\
  is_up one_pupil = Ok None /\ is_bottom one_pupil = Ok None /\
  is_blinking one_pupil = Ok None /\
  is_winking_right one_pupil = Ok None /\
  is_winking_left one_pupil = Ok None.
Proof. exact (predicates_absent one_pupil eq_refl). Defined.

Lemma horizontal_zones_partition_example :
  exists r l c : bool,
    is_right gaze_at_right_threshold = Ok (Some r) /\
    is_left gaze_at_right_threshold = Ok (Some l) /\
    is_center gaze_at_right_threshold = Ok (Some c) /\
    ((r = true /\ l = false /\ c = false) \/
     (r = false /\ l = true /\ c = false) \/
     (r = false /\ l = false /\ c = true)).
Proof.
  exact (horizontal_zones_partition gaze_at_right_threshold (60 # 200)
           eq_refl eq_refl).
Defined.

Lemma vertical_zones_disjoint_example :
  exists u b : bool,
    is_up gaze_08_09 = Ok (Some u) /\
    is_bottom gaze_08_09 = Ok (Some b) /\
    ~ (u = true /\ b = true).
Proof.
  exact (vertical_zones_disjoint gaze_08_09 (180 # 200) eq_refl eq_refl).
Defined.

(** [eye_right] shut (4.4), [eye_left] open (4): a left wink. *)
Lemma left_wink_example :
  true_gaze_blinking (looking 12 7 15 12 4 4.4) = Ok 1.
Proof.
  apply (left_wink_iff (looking 12 7 15 12 4 4.4)
           (eye 12 7 15 12 4) (eye 12 7 15 12 4.4) eq_refl eq_refl eq_refl).
  - intros [H _]. vm_compute in H. discriminate H.
  - split; vm_compute; [reflexivity|discriminate].
Defined.

(** Both eyes half shut (4.6 and 4.5): above the right-wink threshold,
    yet no wink. *)
Lemma no_wink_when_symmetric_example :
  true_gaze_blinking (looking 12 7 15 12 4.6 4.5) = Ok 0 \/
  true_gaze_blinking (looking 12 7 15 12 4.6 4.5) = Ok 3.
Proof.
  apply (no_wink_when_symmetric (looking 12 7 15 12 4.6 4.5) 4.5 4.6);
    reflexivity.
Defined.

Lemma true_gaze_direction_range_example :
  -1 <= 2 <= 8 /\ (2 = -1 <-> pupils_located gaze_02_02 = false).
Proof. exact (true_gaze_direction_range gaze_02_02 2 eq_refl). Defined.

Lemma index_decomposition_example :
  exists n,
    true_gaze_direction gaze_08_09 = Ok n /\
    (is_left gaze_08_09 = Ok (Some true) <-> n mod 3 = 0) /\
    (is_center gaze_08_09 = Ok (Some true) <-> n mod 3 = 1) /\
    (is_right gaze_08_09 = Ok (Some true) <-> n mod 3 = 2) /\
    (is_up gaze_08_09 = Ok (Some true) <-> n / 3 = 0) /\
    (is_bottom gaze_08_09 = Ok (Some true) <-> n / 3 = 2).
Proof.
  exact (index_decomposition gaze_08_09 (160 # 200) (180 # 200)
           eq_refl eq_refl eq_refl).
Defined.

Lemma direction_symmetric_example :
  pupils_located (state (Some (eye 2 5 10 10 3)) (Some (eye 9 5 12 10 3)))
  = pupils_located (state (Some (eye 9 5 12 10 3)) (Some (eye 2 5 10 10 3)))
  /\
  true_gaze_direction
    (state (Some (eye 2 5 10 10 3)) (Some (eye 9 5 12 10 3)))
  = true_gaze_direction
      (state (Some (eye 9 5 12 10 3)) (Some (eye 2 5 10 10 3))).
Proof.
  exact (direction_symmetric
           (state (Some (eye 2 5 10 10 3)) (Some (eye 9 5 12 10 3)))
           (state (Some (eye 9 5 12 10 3)) (Some (eye 2 5 10 10 3)))
           eq_refl eq_refl).
Defined.

Lemma refresh_pair_or_nothing_example :
  (exists el er,
      eye_left (snd (refresh cvtColor face_detector predictor Eye_init
                             tracking [[5]])) = Some el /\
      eye_right (snd (refresh cvtColor face_detector predictor Eye_init
                              tracking [[5]])) = Some er) \/
  (eye_left (snd (refresh cvtColor face_detector predictor Eye_init
                          tracking [[5]])) = None /\
   eye_right (snd (refresh cvtColor face_detector predictor Eye_init
                           tracking [[5]])) = None).
Proof.
  exact (refresh_pair_or_nothing cvtColor face_detector predictor Eye_init
           tracking [[5]] eq_refl).
Defined.

(** Two faces: the eyes come from the first, and the second
    construction sees the calibration left by the first. *)
Lemma refresh_first_face_example :
  refresh cvtColor two_faces predictor Eye_init_by_side tracking [[5]]
  = (Ok tt,
     mkGaze (Some [[5]]) (Some (eye 10 2 15 12 3)) (Some (eye 11 3 15 12 3))
            4%nat).
Proof.
  exact (refresh_first_face cvtColor two_faces predictor Eye_init_by_side
           tracking [[5]] [[5]] 7%nat [8%nat] tt _ _ 3%nat 4%nat
           eq_refl eq_refl eq_refl eq_refl eq_refl).
Defined.

(** The eye of side 0 is built, the construction for side 1 raises
    [IndexError]: the call returns and both eye models are [None]. *)
Lemma refresh_absorbs_IndexError_example :
  fst (refresh cvtColor face_detector predictor
               (Eye_init_right_fails IndexError) tracking [[5]]) = Ok tt /\
  eye_left (snd (refresh cvtColor face_detector predictor
                         (Eye_init_right_fails IndexError) tracking [[5]]))
  = None /\
  eye_right (snd (refresh cvtColor face_detector predictor
                          (Eye_init_right_fails IndexError) tracking [[5]]))
  = None.
Proof.
  exact (proj2 (refresh_absorbs_IndexError cvtColor face_detector predictor
                  (Eye_init_right_fails IndexError) tracking [[5]] [[5]]
                  [0%nat] eq_refl eq_refl) eq_refl).
Defined.

Lemma refresh_fails_before_try_example :
  refresh cvtColor_fails face_detector predictor Eye_init tracking [[5]]
  = (Raise ExternalError,
     mkGaze (Some [[5]]) (eye_left tracking) (eye_right tracking) 2%nat) /\
  pupils_located
    (snd (refresh cvtColor_fails face_detector predictor Eye_init
                  tracking [[5]])) = true.
Proof.
  destruct (refresh_fails_before_try cvtColor_fails face_detector predictor
              Eye_init tracking [[5]] ExternalError (or_introl eq_refl))
    as (E & Hloc & _).
  split; [exact E|]. rewrite Hloc. reflexivity.
Defined.

Lemma refresh_partial_update_example :
  refresh cvtColor face_detector predictor
          (Eye_init_right_fails ExternalError) tracking [[5]]
  = (Raise ExternalError,
     mkGaze (Some [[5]]) (Some (eye 9 4 15 12 3)) (eye_right tracking)
            4%nat).
Proof.
  refine (refresh_partial_update cvtColor face_detector predictor
            (Eye_init_right_fails ExternalError) tracking [[5]] [[5]]
            0%nat [] tt _ 3%nat 4%nat ExternalError
            eq_refl eq_refl eq_refl eq_refl eq_refl _).
  discriminate.
Defined.

Lemma annotated_frame_faults_example :
  annotated_frame draw
    (with_canvas (Some (eye 12 7 15 10 3)) None) = Ok [].
Proof.
  exact (proj2 (annotated_frame_faults draw
                  (with_canvas (Some (eye 12 7 15 10 3)) None))
               [] eq_refl eq_refl).
Defined.

Lemma annotated_frame_crosses_example :
  annotated_frame draw
    (with_canvas (Some (eye 12 7 15 10 3)) (Some (eye 11 6 15 10 3)))
  = Ok [((107, 57), (117, 57)); ((112, 52), (112, 62));
        ((106, 56), (116, 56)); ((111, 51), (111, 61))].
Proof.
  exact (annotated_frame_crosses draw
           (with_canvas (Some (eye 12 7 15 10 3)) (Some (eye 11 6 15 10 3)))
           [] 112 57 111 56 eq_refl eq_refl eq_refl).
Defined.

Lemma status_agrees_with_predicates_example :
  is_blinking eyes_shut = Ok (Some true) /\
  true_gaze_blinking eyes_shut = Ok 3.
Proof.
  split; [reflexivity|].
  apply (status_agrees_with_predicates eyes_shut eq_refl). reflexivity.
Defined.

End MoreExamples.
